(** * tmp-dns: DNS over TCP and DNS over HTTPS

    A shallow embedding of [main.go]: the two transports [DNSOverTCP] and
    [DNSOverHTTPS] and the dispatch in [main], over a model of the Go
    library calls they make ([net.Dial], [conn.Write], [conn.Read],
    [base64.RawURLEncoding], [http.Client.Do], [ioutil.ReadAll]) and of the
    external DNS codec (github.com/miekg/dns). *)

From Stdlib Require Import ZArith List Bool Lia.
From Stdlib Require Import Strings.String Strings.Ascii Strings.Byte.
Import ListNotations.

Local Open Scope Z_scope.
Local Open Scope list_scope.
Local Open Scope string_scope.

(** ** Go values *)

Abbreviation bytes := (list byte).

(** Go's [error] values are built with [fmt.Errorf]; they are their message. *)
Abbreviation error := string.

(** [len(x)] *)
Definition len {A : Type} (l : list A) : Z := Z.of_nat (List.length l).

(** [int(b)], [uint(b)] for a byte [b] *)
Definition byte_val (b : byte) : Z := Z.of_N (Byte.to_N b).

(** [byte(z)]: conversion to [uint8] keeps the low eight bits *)
Definition to_byte (z : Z) : byte :=
  match Byte.of_N (Z.to_N (z mod 256)) with
  | Some b => b
  | None => x00
  end.

(** [uint16(z)]: conversion keeps the low sixteen bits *)
Definition uint16 (z : Z) : Z := z mod 65536.

(** [make([]byte, n)]: [n] zero bytes *)
Definition make (n : Z) : bytes := repeat x00 (Z.to_nat n).

(** [string(b)] for a byte slice *)
Definition string_of_bytes (b : bytes) : string := string_of_list_byte b.

(** ** The DNS codec (github.com/miekg/dns), an external collaborator *)

Class DNS := {
  Msg : Type;
  (** [new(dns.Msg)] *)
  new_Msg : Msg;
  (** [dns.Fqdn] *)
  Fqdn : string -> string;
  (** [m.SetQuestion(name, qtype)] *)
  SetQuestion : Msg -> string -> Z -> Msg;
  (** [m.RecursionDesired = b] *)
  set_RecursionDesired : Msg -> bool -> Msg;
  (** [m.Pack()] *)
  Pack : Msg -> bytes + error;
  (** [resp := new(dns.Msg); resp.Unpack(b)] *)
  Unpack : bytes -> Msg + error;
  (** the printed form of each record of [m.Answer] *)
  Answer : Msg -> list string
}.

(** [dns.TypeA] *)
Definition TypeA : Z := 1.

(** ** The network, as the program sees it *)

(** How a byte stream ends once its data is consumed: the peer closed it
    (reads return [io.EOF]), the connection failed, or the peer stays
    connected and sends nothing more. *)
Inductive ending :=
| Closed
| Failed (cause : error)
| Silent.

(** Inbound data: the segments in the order they become available to a
    read, and how the stream ends after them. *)
Record stream := { chunks : list bytes; fin : ending }.

Inductive WriteResult :=
| WriteOk
| WriteErr (cause : error)
| WriteSilent.

(** The far end of a TCP connection. *)
Record Peer := { on_write : bytes -> WriteResult; inbound : stream }.

(** What a dial meets: a peer that accepts the connection, a failure, or
    no answer at all. *)
Inductive DialResult :=
| DialOk (p : Peer)
| DialErr (cause : error)
| DialSilent.

(** [net.Dialer]; a zero [Timeout] means no timeout. *)
Record Dialer := { Dialer_Timeout : Z }.

(** [net.Conn]: the peer's data not read yet, and the deadline set with
    [SetDeadline] ([None]: no deadline, the zero value). *)
Record Conn := {
  conn_peer : bytes -> WriteResult;
  rx : stream;
  deadline : option Z
}.

(** [http.Request] *)
Record Request := {
  Method : string;
  URL : string;
  Header : list (string * string)
}.

(** What the HTTP server does with a request: it responds; the round trip
    fails; or it takes the request over an established connection and never
    sends a response. *)
Inductive RoundTripResult :=
| Responds (status : string) (code : Z) (content : stream)
| TransportErr (cause : error)
| NoResponse.

(** [resp.Body]: the content and the deadline inherited from the client. *)
Record ReadCloser := { content : stream; body_deadline : option Z }.

(** [http.Response] *)
Record Response := {
  Status : string;
  StatusCode : Z;
  Body : ReadCloser
}.

(** [http.Client]; a zero [Timeout] means no timeout. *)
Record Client := { Timeout : Z }.

(** [http.StatusOK] *)
Definition StatusOK : Z := 200.

(** Everything outside the program. *)
Record Env := {
  dial : string -> string -> DialResult;
  url_error : string -> option error;
  round_trip : Request -> RoundTripResult
}.

(** ** Effects: a trace of the calls made, and calls that never return *)

Inductive event :=
| EDial (network address : string)
| EPack
| EWrite (p : bytes)
| ERead (size : Z)
| EClose
| EUnpack (buf : bytes)
| EDo (req : Request)
| EReadAll
| EBodyClose.

Inductive outcome (A : Type) :=
| Returns (a : A)
| Blocks.
Arguments Returns {A} a.
Arguments Blocks {A}.

Definition IO (A : Type) := list event -> list event * outcome A.

Definition ret {A : Type} (a : A) : IO A := fun t => (t, Returns a).

Definition bind {A B : Type} (m : IO A) (k : A -> IO B) : IO B :=
  fun t =>
    match m t with
    | (t', Returns a) => k a t'
    | (t', Blocks) => (t', Blocks)
    end.

Definition emit (e : event) : IO unit := fun t => ((t ++ [e])%list, Returns tt).

(** A call that does not return. *)
Definition block {A : Type} : IO A := fun t => (t, Blocks).

(** [defer f()]: [f] runs when the surrounding function returns. *)
Definition defer {A : Type} (f : IO unit) (body : IO A) : IO A :=
  fun t =>
    match body t with
    | (t', Returns a) => (fst (f t'), Returns a)
    | (t', Blocks) => (t', Blocks)
    end.

Declare Scope io_scope.
Delimit Scope io_scope with io.
Notation "x <- m ;; k" := (bind m (fun x => k))
  (at level 61, m at next level, right associativity) : io_scope.
Notation "' p <- m ;; k" := (bind m (fun x => match x with p => k end))
  (at level 61, p pattern, m at next level, right associativity) : io_scope.
Notation "m ;; k" := (bind m (fun _ => k))
  (at level 61, right associativity) : io_scope.
Local Open Scope io_scope.

(** The events a computation adds to an empty trace. *)
Definition trace_of {A : Type} (m : IO A) : list event := fst (m []).

(** ** package net *)

(** [d.Dial(network, address)].  A dial that is not answered ends with an
    error: when the dialer's timeout elapses or, with no timeout set, when
    the operating system gives up on the connection. *)
Definition Dialer_Dial (env : Env) (d : Dialer) (network address : string)
  : IO (Conn + error) :=
  emit (EDial network address) ;;
  match dial env network address with
  | DialOk p =>
      ret (inl {| conn_peer := on_write p; rx := inbound p; deadline := None |})
  | DialErr cause => ret (inr cause)
  | DialSilent =>
      ret (inr ("dial " ++ network ++ " " ++ address ++ ": "
                ++ (if (Dialer_Timeout d =? 0)%Z
                    then "connect: connection timed out"
                    else "i/o timeout")))
  end.

(** [net.Dial]: [var d Dialer; return d.Dial(network, address)] *)
Definition net_Dial (env : Env) (network address : string) : IO (Conn + error) :=
  Dialer_Dial env {| Dialer_Timeout := 0 |} network address.

(** [conn.Write(p)]: all of [p] is written, or the error is not nil. *)
Definition conn_Write (c : Conn) (p : bytes) : IO (option error) :=
  emit (EWrite p) ;;
  match conn_peer c p with
  | WriteOk => ret None
  | WriteErr cause => ret (Some cause)
  | WriteSilent =>
      match deadline c with
      | None => block
      | Some _ => ret (Some "i/o timeout")
      end
  end.

(** The data one read of at most [k] bytes takes from the segments: what is
    available now, never more than [k] bytes; the remainder of a larger
    segment stays for the next read. *)
Fixpoint take_available (cs : list bytes) (k : nat) : option (bytes * list bytes) :=
  match cs with
  | [] => None
  | [] :: rest => take_available rest k
  | d :: rest =>
      Some (firstn k d, if (List.length d <=? k)%nat then rest else skipn k d :: rest)
  end.

(** [n, err := conn.Read(buf)]: returns the connection, the buffer as the
    read left it, [n] and [err].  A read into an empty buffer returns
    [0, nil] at once; otherwise it waits for data and copies what is
    available, at most [len(buf)] bytes, to the front of [buf]. *)
Definition conn_Read (c : Conn) (buf : bytes)
  : IO (Conn * bytes * Z * option error) :=
  emit (ERead (len buf)) ;;
  match buf with
  | [] => ret (c, buf, 0, None)
  | _ =>
      match take_available (chunks (rx c)) (List.length buf) with
      | Some (d, rest) =>
          ret ({| conn_peer := conn_peer c;
                  rx := {| chunks := rest; fin := fin (rx c) |};
                  deadline := deadline c |},
               (d ++ skipn (List.length d) buf)%list, len d, None)
      | None =>
          match fin (rx c) with
          | Closed => ret (c, buf, 0, Some "EOF")
          | Failed cause => ret (c, buf, 0, Some cause)
          | Silent =>
              match deadline c with
              | None => block
              | Some _ => ret (c, buf, 0, Some "i/o timeout")
              end
          end
      end
  end.

(** [conn.Close()] *)
Definition conn_Close (c : Conn) : IO unit := emit EClose.

(** ** package encoding/base64 *)

(** [base64.Encoding]: the 64 characters of the alphabet and the padding
    character ([None] is [base64.NoPadding]). *)
Record Encoding := { encode : bytes; padChar : option byte }.

Definition encodeURL : string :=
  "ABCDEFGHIJKLMNOPQRSTUVWXYZabcdefghijklmnopqrstuvwxyz0123456789-_".

(** [base64.StdPadding], the character '=' *)
Definition StdPadding : byte := x3d.

(** [base64.URLEncoding = NewEncoding(encodeURL)] *)
Definition URLEncoding : Encoding :=
  {| encode := list_byte_of_string encodeURL; padChar := Some StdPadding |}.

(** [enc.WithPadding(padding)] *)
Definition WithPadding (enc : Encoding) (padding : option byte) : Encoding :=
  {| encode := encode enc; padChar := padding |}.

(** [base64.RawURLEncoding = URLEncoding.WithPadding(NoPadding)] *)
Definition RawURLEncoding : Encoding := WithPadding URLEncoding None.

(** [enc.encode[i]] *)
Definition encode_at (enc : Encoding) (i : Z) : byte :=
  nth (Z.to_nat i) (encode enc) x00.

(** the padding written after a partial group: [n] characters, or none *)
Definition padding (enc : Encoding) (n : nat) : bytes :=
  match padChar enc with
  | Some c => repeat c n
  | None => []
  end.

(** [enc.Encode(dst, src)]: three bytes give four characters; one or two
    remaining bytes give two or three characters and the padding. *)
Fixpoint Encode (enc : Encoding) (src : bytes) : bytes :=
  match src with
  | b0 :: b1 :: b2 :: rest =>
      let val := Z.lor (Z.lor (Z.shiftl (byte_val b0) 16)
                              (Z.shiftl (byte_val b1) 8)) (byte_val b2) in
      encode_at enc (Z.land (Z.shiftr val 18) 63)
      :: encode_at enc (Z.land (Z.shiftr val 12) 63)
      :: encode_at enc (Z.land (Z.shiftr val 6) 63)
      :: encode_at enc (Z.land val 63)
      :: Encode enc rest
  | [b0; b1] =>
      let val := Z.lor (Z.shiftl (byte_val b0) 16) (Z.shiftl (byte_val b1) 8) in
      (encode_at enc (Z.land (Z.shiftr val 18) 63)
       :: encode_at enc (Z.land (Z.shiftr val 12) 63)
       :: encode_at enc (Z.land (Z.shiftr val 6) 63)
       :: padding enc 1)%list
  | [b0] =>
      let val := Z.shiftl (byte_val b0) 16 in
      (encode_at enc (Z.land (Z.shiftr val 18) 63)
       :: encode_at enc (Z.land (Z.shiftr val 12) 63)
       :: padding enc 2)%list
  | [] => []
  end.

(** [enc.EncodeToString(src)] *)
Definition EncodeToString (enc : Encoding) (src : bytes) : string :=
  string_of_bytes (Encode enc src).

(** position of [c] in an alphabet *)
Fixpoint index_of (c : byte) (l : bytes) : option Z :=
  match l with
  | [] => None
  | x :: r => if Byte.eqb c x then Some 0 else option_map Z.succ (index_of c r)
  end.

(** [enc.decodeMap[c]]; [None] stands for the invalid entry [0xFF] *)
Definition decodeMap (enc : Encoding) (c : byte) : option Z :=
  index_of c (encode enc).

(** the decoder skips carriage returns and line feeds *)
Definition strip_newlines (s : bytes) : bytes :=
  filter (fun c => negb (Byte.eqb c x0a || Byte.eqb c x0d)) s.

(** Decoding of the characters of an encoding without padding: four
    characters give three bytes, two or three remaining characters give one
    or two bytes, one remaining character or a character outside the
    alphabet is corrupt input ([None]). *)
Fixpoint decode_quanta (enc : Encoding) (s : bytes) : option bytes :=
  match s with
  | c0 :: c1 :: c2 :: c3 :: rest =>
      match decodeMap enc c0, decodeMap enc c1, decodeMap enc c2,
            decodeMap enc c3, decode_quanta enc rest with
      | Some d0, Some d1, Some d2, Some d3, Some tl =>
          let val := Z.lor (Z.lor (Z.lor (Z.shiftl d0 18) (Z.shiftl d1 12))
                                  (Z.shiftl d2 6)) d3 in
          Some (to_byte (Z.shiftr val 16) :: to_byte (Z.shiftr val 8)
                :: to_byte val :: tl)
      | _, _, _, _, _ => None
      end
  | [c0; c1; c2] =>
      match decodeMap enc c0, decodeMap enc c1, decodeMap enc c2 with
      | Some d0, Some d1, Some d2 =>
          let val := Z.lor (Z.lor (Z.shiftl d0 18) (Z.shiftl d1 12))
                           (Z.shiftl d2 6) in
          Some [to_byte (Z.shiftr val 16); to_byte (Z.shiftr val 8)]
      | _, _, _ => None
      end
  | [c0; c1] =>
      match decodeMap enc c0, decodeMap enc c1 with
      | Some d0, Some d1 =>
          let val := Z.lor (Z.shiftl d0 18) (Z.shiftl d1 12) in
          Some [to_byte (Z.shiftr val 16)]
      | _, _ => None
      end
  | [_] => None
  | [] => Some []
  end.

(** [enc.DecodeString(s)] for an encoding without padding (not strict) *)
Definition DecodeString (enc : Encoding) (s : string) : option bytes :=
  decode_quanta enc (strip_newlines (list_byte_of_string s)).

(** ** package net/http *)

(** [http.NewRequest(method, url, nil)]: fails when the URL does not parse. *)
Definition http_NewRequest (env : Env) (method url : string) : Request + error :=
  match url_error env url with
  | Some err => inr err
  | None => inl {| Method := method; URL := url; Header := [] |}
  end.

(** [req.Header.Set(key, value)]: replaces the values of [key]. *)
Definition Header_Set (req : Request) (key value : string) : Request :=
  {| Method := Method req;
     URL := URL req;
     Header := (key, value)
               :: filter (fun kv => negb (fst kv =? key)) (Header req) |}.

(** [client.Do(req)] *)
Definition client_Do (env : Env) (client : Client) (req : Request)
  : IO (Response + error) :=
  emit (EDo req) ;;
  match round_trip env req with
  | Responds status code body =>
      ret (inl {| Status := status;
                  StatusCode := code;
                  Body := {| content := body;
                             body_deadline :=
                               if (Timeout client =? 0)%Z then None
                               else Some (Timeout client) |} |})
  | TransportErr cause => ret (inr cause)
  | NoResponse =>
      if (Timeout client =? 0)%Z then block
      else ret (inr "context deadline exceeded (Client.Timeout exceeded while awaiting headers)")
  end.

(** [resp.Body.Close()] *)
Definition Body_Close (b : ReadCloser) : IO unit := emit EBodyClose.

(** ** package io/ioutil *)

(** [ioutil.ReadAll(r)]: reads until [io.EOF] or an error, with no bound on
    the size, and returns what it read; [io.EOF] is not reported as an error. *)
Definition ioutil_ReadAll (r : ReadCloser) : IO (bytes * option error) :=
  emit EReadAll ;;
  let data := List.concat (chunks (content r)) in
  match fin (content r) with
  | Closed => ret (data, None)
  | Failed cause => ret (data, Some cause)
  | Silent =>
      match body_deadline r with
      | None => block
      | Some _ => ret (data, Some "context deadline exceeded (Client.Timeout or context cancellation while reading body)")
      end
  end.

(** ** Calls into the codec, traced *)

Section Transports.

Context {codec : DNS}.

Definition call_Pack (m : Msg) : IO (bytes + error) :=
  emit EPack ;; ret (Pack m).

Definition call_Unpack (b : bytes) : IO (Msg + error) :=
  emit (EUnpack b) ;; ret (Unpack b).

(** ** main.go *)

(** [DNSOverTCP] performs a DNS query over TCP. *)
Definition DNSOverTCP (env : Env) (domain dnsServer : string) (qtype : Z)
  : IO (Msg + error) :=
  let m := new_Msg in
  let m := SetQuestion m (Fqdn domain) qtype in
  let m := set_RecursionDesired m true in
  r <- net_Dial env "tcp" (dnsServer ++ ":53") ;;
  match r with
  | inr err => ret (inr ("failed to connect to DNS server: " ++ err))
  | inl conn =>
    defer (conn_Close conn) (
      p <- call_Pack m ;;
      match p with
      | inr err => ret (inr ("failed to pack DNS message: " ++ err))
      | inl msgBytes =>
        let length := uint16 (len msgBytes) in
        let buf := [to_byte (Z.shiftr length 8)] in
        let buf := (buf ++ [to_byte (Z.land length 255)])%list in
        let buf := (buf ++ msgBytes)%list in
        werr <- conn_Write conn buf ;;
        match werr with
        | Some err => ret (inr ("failed to send DNS query: " ++ err))
        | None =>
          let lengthBytes := make 2 in
          '(conn, lengthBytes, _, err) <- conn_Read conn lengthBytes ;;
          match err with
          | Some err => ret (inr ("failed to read response length: " ++ err))
          | None =>
            let respLength :=
              Z.lor (Z.shiftl (byte_val (nth 0 lengthBytes x00)) 8)
                    (byte_val (nth 1 lengthBytes x00)) in
            let respBytes := make respLength in
            '(conn, respBytes, _, err) <- conn_Read conn respBytes ;;
            match err with
            | Some err => ret (inr ("failed to read DNS response: " ++ err))
            | None =>
              u <- call_Unpack respBytes ;;
              match u with
              | inr err => ret (inr ("failed to unpack DNS response: " ++ err))
              | inl resp => ret (inl resp)
              end
            end
          end
        end
      end)
  end.

(** [DNSOverHTTPS] performs a DNS query over HTTPS (DoH). *)
Definition DNSOverHTTPS (env : Env) (domain dohURL : string) (qtype : Z)
  : IO (Msg + error) :=
  let m := new_Msg in
  let m := SetQuestion m (Fqdn domain) qtype in
  let m := set_RecursionDesired m true in
  p <- call_Pack m ;;
  match p with
  | inr err => ret (inr ("failed to pack DNS message: " ++ err))
  | inl msgBytes =>
    let encoded := EncodeToString RawURLEncoding msgBytes in
    let fullURL := dohURL ++ "?dns=" ++ encoded in
    match http_NewRequest env "GET" fullURL with
    | inr err => ret (inr ("failed to create HTTP request: " ++ err))
    | inl req =>
      let req := Header_Set req "Accept" "application/dns-message" in
      let client := {| Timeout := 0 |} in
      r <- client_Do env client req ;;
      match r with
      | inr err => ret (inr ("HTTP request failed: " ++ err))
      | inl resp =>
        defer (Body_Close (Body resp)) (
          if negb (StatusCode resp =? StatusOK)%Z then
            '(body, _) <- ioutil_ReadAll (Body resp) ;;
            ret (inr ("DoH server returned non-OK status: " ++ Status resp
                      ++ ", body: " ++ string_of_bytes body))
          else
            '(respBytes, err) <- ioutil_ReadAll (Body resp) ;;
            match err with
            | Some err => ret (inr ("failed to read DNS response: " ++ err))
            | None =>
              u <- call_Unpack respBytes ;;
              match u with
              | inr err => ret (inr ("failed to unpack DNS response: " ++ err))
              | inl respMsg => ret (inl respMsg)
              end
            end)
      end
    end
  end.

(** How the process ends: its exit status, what it printed on standard
    output and what it logged. *)
Record Exit := { exit_code : Z; stdout : string; logged : string }.

Definition nl : string := String (ascii_of_nat 10) EmptyString.

(** [log.Fatalf]: logs the message and calls [os.Exit(1)]. *)
Definition Fatalf (msg : string) : Exit :=
  {| exit_code := 1; stdout := ""; logged := msg |}.

(** The end of [main]: a failed query is fatal, a response is printed. *)
Definition report (domain : string) (r : Msg + error) : Exit :=
  match r with
  | inr err => Fatalf ("DNS query failed: " ++ err)
  | inl response =>
      {| exit_code := 0;
         stdout := "DNS Response for " ++ domain ++ ":" ++ nl
                   ++ String.concat "" (map (fun ans => ans ++ nl)
                                            (Answer response));
         logged := "" |}
  end.

(** [main], with [os.Args] as its argument. *)
Definition main (env : Env) (Args : list string) : IO Exit :=
  if (len Args <? 2)%Z then
    ret {| exit_code := 1;
           stdout := "Usage: " ++ nth 0 Args "" ++ " <domain> [tcp|http]" ++ nl;
           logged := "" |}
  else
    let domain := nth 1 Args "" in
    let method := "tcp" in
    let method := if (len Args >=? 3)%Z then nth 2 Args "" else method in
    if (method =? "tcp")%string then
      r <- DNSOverTCP env domain "8.8.8.8" TypeA ;;
      ret (report domain r)
    else if (method =? "http")%string then
      r <- DNSOverHTTPS env domain "https://cloudflare-dns.com/dns-query" TypeA ;;
      ret (report domain r)
    else
      ret (Fatalf ("Unknown method: " ++ method ++ ". Use 'tcp' or 'http'.")).

End Transports.

(** * Vocabulary of the statements *)

(** The message both transports build from the domain and the record type. *)
Definition query {codec : DNS} (domain : string) (qtype : Z) : Msg :=
  set_RecursionDesired (SetQuestion new_Msg (Fqdn domain) qtype) true.

(** ** Traces *)

(** [emits_from P m pre]: whatever the trace before it, [m] appends the
    events [pre] and then only events that satisfy [P]. *)
Definition emits_from {A : Type} (P : event -> Prop) (m : IO A)
  (pre : list event) : Prop :=
  forall t, exists rest,
    fst (m t) = (t ++ pre ++ rest)%list /\ Forall P rest.

Definition emits {A : Type} (P : event -> Prop) (m : IO A) : Prop :=
  emits_from P m [].

(** [m] appends exactly the event [e], whether it returns or not. *)
Definition one_event {A : Type} (m : IO A) (e : event) : Prop :=
  forall t, exists o, m t = ((t ++ [e])%list, o).

(** Classes of events. *)
Definition is_write (e : event) : bool :=
  match e with EWrite _ => true | _ => false end.
Definition is_unpack (e : event) : bool :=
  match e with EUnpack _ => true | _ => false end.
Definition is_do (e : event) : bool :=
  match e with EDo _ => true | _ => false end.

(** ** Runs of the stream transport *)

Definition is_dial (e : event) : bool :=
  match e with EDial _ _ => true | _ => false end.
Definition is_pack (e : event) : bool :=
  match e with EPack => true | _ => false end.
Definition is_read (e : event) : bool :=
  match e with ERead _ => true | _ => false end.
Definition is_close (e : event) : bool :=
  match e with EClose => true | _ => false end.
Definition is_read_all (e : event) : bool :=
  match e with EReadAll => true | _ => false end.
Definition is_body_close (e : event) : bool :=
  match e with EBodyClose => true | _ => false end.

(** How many events of a class a trace has. *)
Definition count (p : event -> bool) (l : list event) : nat :=
  List.length (filter p l).

(** The frame [DNSOverTCP] builds for a packed query: [byte(length >> 8)],
    [byte(length & 0xFF)], then the message. *)
Definition frame (msgBytes : bytes) : bytes :=
  to_byte (Z.shiftr (uint16 (len msgBytes)) 8)
  :: to_byte (Z.land (uint16 (len msgBytes)) 255)
  :: msgBytes.

(** The connection [net.Dial] returns for a peer. *)
Definition connect (p : Peer) : Conn :=
  {| conn_peer := on_write p; rx := inbound p; deadline := None |}.

(** What one [conn.Read] returns, apart from the event it adds. *)
Definition read_outcome (c : Conn) (buf : bytes)
  : outcome (Conn * bytes * Z * option error) :=
  snd (conn_Read c buf []).

(** The error a read reports at the end of a stream, if it reports one. *)
Definition end_cause (e : ending) : option error :=
  match e with
  | Closed => Some "EOF"
  | Failed cause => Some cause
  | Silent => None
  end.

(** What [DNSOverTCP] returns for what the decoder returns. *)
Definition decoded {codec : DNS} (r : Msg + error) : Msg + error :=
  match r with
  | inl resp => inl resp
  | inr err => inr ("failed to unpack DNS response: " ++ err)
  end.

(** The run of [DNSOverTCP] after the frame is written, by the outcomes of
    the two reads and of the decoder. *)
Definition tcp_after_write {codec : DNS} (c0 : Conn) (t : list event)
  : list event * outcome (Msg + error) :=
  match read_outcome c0 (make 2) with
  | Blocks => ((t ++ [ERead 2])%list, Blocks)
  | Returns (_, _, _, Some err) =>
      ((t ++ [ERead 2; EClose])%list,
       Returns (inr ("failed to read response length: " ++ err)))
  | Returns (c1, lengthBytes, _, None) =>
      let respLength :=
        Z.lor (Z.shiftl (byte_val (nth 0 lengthBytes x00)) 8)
              (byte_val (nth 1 lengthBytes x00)) in
      match read_outcome c1 (make respLength) with
      | Blocks => ((t ++ [ERead 2; ERead (len (make respLength))])%list, Blocks)
      | Returns (_, _, _, Some err) =>
          ((t ++ [ERead 2; ERead (len (make respLength)); EClose])%list,
           Returns (inr ("failed to read DNS response: " ++ err)))
      | Returns (_, respBytes, _, None) =>
          ((t ++ [ERead 2; ERead (len (make respLength)); EUnpack respBytes;
                  EClose])%list,
           Returns (decoded (Unpack respBytes)))
      end
  end.

(** The whole run of [DNSOverTCP], by what the environment and the codec
    answer. *)
Definition tcp_run {codec : DNS} (env : Env) (domain dnsServer : string)
  (qtype : Z) (t : list event) : list event * outcome (Msg + error) :=
  let dialled := EDial "tcp" (dnsServer ++ ":53") in
  match dial env "tcp" (dnsServer ++ ":53") with
  | DialErr cause =>
      ((t ++ [dialled])%list,
       Returns (inr ("failed to connect to DNS server: " ++ cause)))
  | DialSilent =>
      ((t ++ [dialled])%list,
       Returns (inr ("failed to connect to DNS server: "
                     ++ "dial tcp " ++ (dnsServer ++ ":53")
                     ++ ": connect: connection timed out")))
  | DialOk p =>
      match Pack (query domain qtype) with
      | inr err =>
          ((t ++ [dialled; EPack; EClose])%list,
           Returns (inr ("failed to pack DNS message: " ++ err)))
      | inl msgBytes =>
          match on_write p (frame msgBytes) with
          | WriteErr cause =>
              ((t ++ [dialled; EPack; EWrite (frame msgBytes); EClose])%list,
               Returns (inr ("failed to send DNS query: " ++ cause)))
          | WriteSilent =>
              ((t ++ [dialled; EPack; EWrite (frame msgBytes)])%list, Blocks)
          | WriteOk =>
              tcp_after_write (connect p)
                (t ++ [dialled; EPack; EWrite (frame msgBytes)])%list
          end
      end
  end.

(** The buffer handed to the decoder fits a 16-bit length. *)
Definition decodes_at_most_64K (e : event) : Prop :=
  match e with
  | EUnpack b => len b <= 65535
  | _ => True
  end.

(** ** Peers that never respond *)

(** The connected peer stops responding at one of the three blocking
    operations on the connection: it never takes the frame (the write
    stalls); it takes the frame and sends nothing (the read of the prefix
    stalls); or it sends the two prefix bytes, which announce a body, and
    then nothing (the read of the body stalls). *)
Definition stalls (p : Peer) (frame : bytes) : Prop :=
  on_write p frame = WriteSilent
  \/ (on_write p frame = WriteOk
      /\ fin (inbound p) = Silent
      /\ (Forall (fun d => d = []) (chunks (inbound p))
          \/ exists hi lo more,
               chunks (inbound p) = [hi; lo] :: more
               /\ Forall (fun d => d = []) more
               /\ byte_val hi * 256 + byte_val lo <> 0)).

(** The server takes the request and sends no response, or responds and
    never ends the body. *)
Definition never_responds (r : RoundTripResult) : Prop :=
  match r with
  | NoResponse => True
  | Responds _ _ body => fin body = Silent
  | TransportErr _ => False
  end.

(** ** The DoH request *)

(** The request of the DoH interface: [GET <dohURL>?dns=<base64url, no
    padding>] with the header [Accept: application/dns-message]. *)
Definition doh_request (dohURL : string) (msgBytes : bytes) : Request :=
  {| Method := "GET";
     URL := dohURL ++ "?dns=" ++ EncodeToString RawURLEncoding msgBytes;
     Header := [("Accept", "application/dns-message")] |}.

(** The error for a status other than 200. *)
Definition non_OK (status : string) (body : bytes) : error :=
  "DoH server returned non-OK status: " ++ status ++ ", body: "
  ++ string_of_bytes body.

(** ** The base64url alphabet *)

(** The character of a six-bit value decodes to that value, and is neither
    the padding character nor a line break. *)
Definition sextet_check (i : Z) : bool :=
  let c := encode_at RawURLEncoding i in
  match decodeMap RawURLEncoding c with
  | Some j => (j =? i)%Z && negb (Byte.eqb c StdPadding)
              && negb (Byte.eqb c x0a || Byte.eqb c x0d)
  | None => false
  end.

(** A character of the alphabet. *)
Definition url_char (c : byte) : Prop :=
  exists i, 0 <= i < 64 /\ c = encode_at RawURLEncoding i.

(** ** Example codecs, peers and servers *)

(** A codec whose messages are their own bytes: the query for a name is the
    name, and every byte string decodes. *)
Definition rawCodec : DNS :=
  {| Msg := bytes;
     new_Msg := [];
     Fqdn := fun s => s ++ ".";
     SetQuestion := fun _ name _ => list_byte_of_string name;
     set_RecursionDesired := fun m _ => m;
     Pack := fun m => inl m;
     Unpack := fun b => inl b;
     Answer := fun m => [string_of_bytes m] |}.

(** A codec that rejects every query. *)
Definition rejectingCodec : DNS :=
  {| Msg := bytes;
     new_Msg := [];
     Fqdn := fun s => s ++ ".";
     SetQuestion := fun _ name _ => list_byte_of_string name;
     set_RecursionDesired := fun m _ => m;
     Pack := fun _ => inr "dns: bad rdata";
     Unpack := fun b => inl b;
     Answer := fun m => [string_of_bytes m] |}.

(** A codec whose packed query is 65536 + 5 bytes long. *)
Definition oversizeCodec : DNS :=
  {| Msg := bytes;
     new_Msg := [];
     Fqdn := fun s => s ++ ".";
     SetQuestion := fun _ name _ => list_byte_of_string name;
     set_RecursionDesired := fun m _ => m;
     Pack := fun _ => inl (repeat x2e (Z.to_nat 65541));
     Unpack := fun b => inl b;
     Answer := fun m => [string_of_bytes m] |}.

(** A server that accepts what is written and sends the given segments. *)
Definition server (segments : list bytes) (e : ending) : Peer :=
  {| on_write := fun _ => WriteOk;
     inbound := {| chunks := segments; fin := e |} |}.

(** An environment with one TCP peer and one HTTP behaviour. *)
Definition world (p : DialResult) (h : RoundTripResult) : Env :=
  {| dial := fun _ _ => p; url_error := fun _ => None; round_trip := fun _ => h |}.

(** The stub server of the end-to-end scenario: it answers with one
    four-byte message, prefix and body in one segment. *)
Definition stub_server : Peer :=
  server [[x00; x04; x01; x02; x03; x04]] Closed.

Definition stub_world : Env := world (DialOk stub_server) NoResponse.

(** A peer that accepts the connection and the query, and stays silent;
    an HTTP server that sends no response. *)
Definition silent_world : Env := world (DialOk (server [] Silent)) NoResponse.

Definition cloudflare : string := "https://cloudflare-dns.com/dns-query".

(** An HTTP server that answers every request the same way. *)
Definition http_world (h : RoundTripResult) : Env := world DialSilent h.

Definition ok_response : RoundTripResult :=
  Responds "200 OK" 200 {| chunks := [[x01; x02]; [x03; x04]]; fin := Closed |}.

Definition error_response : RoundTripResult :=
  Responds "500 Internal Server Error" 500
           {| chunks := [list_byte_of_string "oops"]; fin := Closed |}.

(** A body of 64 KiB and one byte. *)
Definition big_body : bytes := repeat x00 (Z.to_nat 65537).

Definition big_response : RoundTripResult :=
  Responds "200 OK" 200 {| chunks := [big_body]; fin := Closed |}.

(** * Properties *)

(** ** Bytes and arithmetic *)

Lemma byte_val_bounded (b : byte) : 0 <= byte_val b < 256.
Proof.
  unfold byte_val. pose proof (Byte.to_N_bounded b). lia.
Qed.

Lemma byte_val_to_byte (z : Z) : byte_val (to_byte z) = z mod 256.
Proof.
  unfold byte_val, to_byte.
  assert (Hr : 0 <= z mod 256 < 256) by (apply Z.mod_pos_bound; lia).
  destruct (Byte.of_N (Z.to_N (z mod 256))) as [b|] eqn:E.
  - apply Byte.to_of_N in E. rewrite E. lia.
  - apply Byte.of_N_None_iff in E. lia.
Qed.

Lemma to_byte_byte_val (b : byte) : to_byte (byte_val b) = b.
Proof.
  unfold to_byte, byte_val.
  pose proof (Byte.to_N_bounded b) as Hb.
  rewrite Z.mod_small by lia.
  rewrite N2Z.id, Byte.of_to_N. reflexivity.
Qed.

(** [a<<k | b] adds when [b] fits in the [k] low bits. *)
Lemma lor_shiftl_add (a b k : Z) :
  0 <= k -> 0 <= b < 2 ^ k -> Z.lor (Z.shiftl a k) b = a * 2 ^ k + b.
Proof.
  intros Hk Hb.
  rewrite <- Z.shiftl_mul_pow2 by assumption.
  assert (Hland : Z.land (Z.shiftl a k) b = 0).
  { apply Z.bits_inj'. intros n Hn.
    rewrite Z.land_spec, Z.bits_0.
    destruct (Z.lt_ge_cases n k) as [Hlt | Hge].
    - rewrite Z.shiftl_spec_low by assumption. reflexivity.
    - destruct (Z.eq_dec b 0) as [-> | Hnz].
      + rewrite Z.bits_0. apply andb_false_r.
      + rewrite (Z.bits_above_log2 b n); [apply andb_false_r | lia |].
        apply Z.log2_lt_pow2; [lia |].
        apply Z.lt_le_trans with (2 ^ k); [lia |].
        apply Z.pow_le_mono_r; lia. }
  rewrite <- Z.lxor_lor by assumption.
  symmetry. apply Z.add_nocarry_lxor. assumption.
Qed.

Lemma len_nonneg {A : Type} (l : list A) : 0 <= len l.
Proof. unfold len. lia. Qed.

(** The two prefix bytes [byte(length >> 8)], [byte(length & 0xFF)] read
    back, big-endian, as [length]. *)
Lemma prefix_big_endian (n : Z) :
  0 <= n < 65536 ->
  byte_val (to_byte (Z.shiftr n 8)) * 256 + byte_val (to_byte (Z.land n 255)) = n.
Proof.
  intros Hn.
  rewrite !byte_val_to_byte.
  rewrite Z.shiftr_div_pow2 by lia.
  change 255 with (Z.ones 8). rewrite Z.land_ones by lia.
  change (2 ^ 8) with 256.
  rewrite Z.mod_mod by lia.
  rewrite (Z.mod_small (n / 256)) by (split; [apply Z.div_pos; lia | apply Z.div_lt_upper_bound; lia]).
  pose proof (Z.div_mod n 256). lia.
Qed.

(** ** Running the transports *)

(** *** The monad *)

Lemma bind_unfold {A B : Type} (m : IO A) (k : A -> IO B) (t : list event) :
  bind m k t = match m t with
               | (t', Returns a) => k a t'
               | (t', Blocks) => (t', Blocks)
               end.
Proof. reflexivity. Qed.

Lemma defer_unfold {A : Type} (f : IO unit) (body : IO A) (t : list event) :
  defer f body t = match body t with
                   | (t', Returns a) => (fst (f t'), Returns a)
                   | (t', Blocks) => (t', Blocks)
                   end.
Proof. reflexivity. Qed.

Section Emits.

Context {A B : Type} (P : event -> Prop).

Lemma emits_ret (a : A) : emits P (ret a).
Proof.
  intros t. exists []. cbn. rewrite app_nil_r. split; [reflexivity | constructor].
Qed.

Lemma emits_block : emits P (@block A).
Proof.
  intros t. exists []. cbn. rewrite app_nil_r. split; [reflexivity | constructor].
Qed.

Lemma emits_one (m : IO A) (e : event) : one_event m e -> P e -> emits P m.
Proof.
  intros Hm He t. destruct (Hm t) as [o Ho]. exists [e].
  rewrite Ho. cbn. split; [reflexivity | repeat constructor; assumption].
Qed.

Lemma emits_bind (m : IO A) (k : A -> IO B) :
  emits P m -> (forall a, emits P (k a)) -> emits P (bind m k).
Proof.
  intros Hm Hk t. rewrite bind_unfold.
  destruct (Hm t) as [r1 [E1 F1]]. cbn [app] in E1.
  destruct (m t) as [t' [a|]]; cbn [fst] in E1; subst t'.
  - destruct (Hk a (t ++ r1)%list) as [r2 [E2 F2]]. cbn [app] in E2.
    exists (r1 ++ r2)%list. cbn [app]. rewrite E2, app_assoc.
    split; [reflexivity | apply Forall_app; split; assumption].
  - exists r1. split; [reflexivity | assumption].
Qed.

(** A first call that appends one event, then a continuation. *)
Lemma emits_from_bind (m : IO A) (k : A -> IO B) (e : event) :
  one_event m e -> (forall a, emits P (k a)) -> emits_from P (bind m k) [e].
Proof.
  intros Hm Hk t. rewrite bind_unfold.
  destruct (Hm t) as [o Ho]. rewrite Ho. destruct o as [a|].
  - destruct (Hk a (t ++ [e])%list) as [r [E F]]. cbn [app] in E.
    exists r. rewrite E, <- app_assoc. split; [reflexivity | assumption].
  - exists []. cbn [fst]. split; [reflexivity | constructor].
Qed.

Lemma emits_from_defer (f : IO unit) (body : IO A) (pre : list event) :
  emits_from P body pre -> emits P f -> emits_from P (defer f body) pre.
Proof.
  intros Hb Hf t. rewrite defer_unfold.
  destruct (Hb t) as [r1 [E1 F1]].
  destruct (body t) as [t' [a|]]; cbn [fst] in E1; subst t'.
  - destruct (Hf (t ++ pre ++ r1)%list) as [r2 [E2 F2]]. cbn [app] in E2.
    exists (r1 ++ r2)%list. cbn [fst]. rewrite E2, <- !app_assoc.
    split; [reflexivity | apply Forall_app; split; assumption].
  - exists r1. split; [reflexivity | assumption].
Qed.

End Emits.

Lemma emits_defer {A : Type} (P : event -> Prop) (f : IO unit) (body : IO A) :
  emits P body -> emits P f -> emits P (defer f body).
Proof. apply emits_from_defer. Qed.

(** *** The library calls *)

Lemma net_Dial_run (env : Env) (network address : string) (t : list event) :
  net_Dial env network address t
  = ((t ++ [EDial network address])%list,
     match dial env network address with
     | DialOk p =>
         Returns (inl {| conn_peer := on_write p; rx := inbound p;
                         deadline := None |})
     | DialErr cause => Returns (inr cause)
     | DialSilent =>
         Returns (inr ("dial " ++ network ++ " " ++ address
                       ++ ": connect: connection timed out"))
     end).
Proof.
  unfold net_Dial, Dialer_Dial. rewrite bind_unfold. cbn.
  destruct (dial env network address); reflexivity.
Qed.

Lemma conn_Write_run (c : Conn) (p : bytes) (t : list event) :
  conn_Write c p t
  = ((t ++ [EWrite p])%list,
     match conn_peer c p with
     | WriteOk => Returns None
     | WriteErr cause => Returns (Some cause)
     | WriteSilent =>
         match deadline c with
         | None => Blocks
         | Some _ => Returns (Some "i/o timeout")
         end
     end).
Proof.
  unfold conn_Write. rewrite bind_unfold. cbn.
  destruct (conn_peer c p); try reflexivity.
  destruct (deadline c); reflexivity.
Qed.

Lemma conn_Write_one (c : Conn) (p : bytes) : one_event (conn_Write c p) (EWrite p).
Proof. intros t. rewrite conn_Write_run. eexists. reflexivity. Qed.

Lemma conn_Read_one (c : Conn) (buf : bytes) :
  one_event (conn_Read c buf) (ERead (len buf)).
Proof.
  intros t. unfold conn_Read. rewrite bind_unfold. cbn [emit].
  destruct buf as [|b buf]; [eexists; reflexivity |].
  destruct (take_available _ _) as [[d rest]|]; [eexists; reflexivity |].
  destruct (fin (rx c)); try (eexists; reflexivity).
  destruct (deadline c); eexists; reflexivity.
Qed.

Lemma conn_Close_run (c : Conn) (t : list event) :
  conn_Close c t = ((t ++ [EClose])%list, Returns tt).
Proof. reflexivity. Qed.

Lemma ioutil_ReadAll_run (r : ReadCloser) (t : list event) :
  ioutil_ReadAll r t
  = ((t ++ [EReadAll])%list,
     match fin (content r) with
     | Closed => Returns (List.concat (chunks (content r)), None)
     | Failed cause => Returns (List.concat (chunks (content r)), Some cause)
     | Silent =>
         match body_deadline r with
         | None => Blocks
         | Some _ =>
             Returns (List.concat (chunks (content r)),
                      Some "context deadline exceeded (Client.Timeout or context cancellation while reading body)")
         end
     end).
Proof.
  unfold ioutil_ReadAll. rewrite bind_unfold. cbn.
  destruct (fin (content r)); try reflexivity.
  destruct (body_deadline r); reflexivity.
Qed.

Lemma Body_Close_run (b : ReadCloser) (t : list event) :
  Body_Close b t = ((t ++ [EBodyClose])%list, Returns tt).
Proof. reflexivity. Qed.

Lemma call_Pack_run {codec : DNS} (m : Msg) (t : list event) :
  call_Pack m t = ((t ++ [EPack])%list, Returns (Pack m)).
Proof. reflexivity. Qed.

Lemma call_Unpack_run {codec : DNS} (b : bytes) (t : list event) :
  call_Unpack b t = ((t ++ [EUnpack b])%list, Returns (Unpack b)).
Proof. reflexivity. Qed.

Lemma call_Unpack_one {codec : DNS} (b : bytes) : one_event (call_Unpack b) (EUnpack b).
Proof. intros t. rewrite call_Unpack_run. eexists. reflexivity. Qed.

(** One step of a run: the head call is replaced by its result. *)
Ltac step :=
  first
    [ rewrite bind_unfold;
      first [ rewrite net_Dial_run | rewrite call_Pack_run
            | rewrite conn_Write_run | rewrite call_Unpack_run
            | rewrite ioutil_ReadAll_run ]
    | rewrite defer_unfold ];
  cbv beta iota zeta.

(** Brings a trace [((t ++ [a]) ++ [b]) ++ ...] to the form [t ++ [a; b; ...]]. *)
Ltac flat := repeat rewrite <- app_assoc; cbn [app].

(** Proves [emits P m] for a continuation of a transport, when [P] holds of
    the events it can add by computation. *)
Ltac emits_tail :=
  repeat first
    [ apply emits_ret
    | apply emits_block
    | apply emits_bind; [| intros ]
    | apply emits_defer
    | eapply emits_one; [apply conn_Read_one | reflexivity]
    | eapply emits_one; [apply conn_Write_one | reflexivity]
    | eapply emits_one; [apply call_Unpack_one | reflexivity]
    | eapply emits_one; [intros ?; eexists; reflexivity | reflexivity]
    | match goal with
      | |- emits _ (match ?x with _ => _ end) => destruct x
      | |- emits _ (if ?x then _ else _) => destruct x
      end ].

(** ** StreamTransport: framing of the query *)

Section TCP.

Context {codec : DNS}.
Variables (env : Env) (domain dnsServer : string) (qtype : Z).

(** The call starts by dialling [dnsServer:53]; nothing precedes the dial. *)
Lemma DNSOverTCP_dials_first (t : list event) :
  exists rest,
    fst (DNSOverTCP env domain dnsServer qtype t)
    = (t ++ EDial "tcp" (dnsServer ++ ":53") :: rest)%list.
Proof.
  unfold DNSOverTCP. step.
  destruct (dial env "tcp" (dnsServer ++ ":53")) as [p | cause |];
    cbv beta iota.
  - match goal with
    | |- context [defer ?f ?b ?t0] =>
        assert (Hem : emits (fun _ => True) (defer f b))
          by (emits_tail; exact I);
        destruct (Hem t0) as [r [E _]]
    end.
    eexists. etransitivity; [exact E |]. flat. reflexivity.
  - eexists. cbn [fst ret]. reflexivity.
  - eexists. reflexivity.
Qed.

(** What is written once the dial and the encoding have succeeded: one
    [conn.Write] of the two prefix bytes followed by the message. *)
Lemma DNSOverTCP_writes_frame (p : Peer) (msgBytes : bytes) (t : list event) :
  dial env "tcp" (dnsServer ++ ":53") = DialOk p ->
  Pack (query domain qtype) = inl msgBytes ->
  let frame := to_byte (Z.shiftr (uint16 (len msgBytes)) 8)
               :: to_byte (Z.land (uint16 (len msgBytes)) 255)
               :: msgBytes in
  exists rest,
    fst (DNSOverTCP env domain dnsServer qtype t)
    = (t ++ [EDial "tcp" (dnsServer ++ ":53"); EPack; EWrite frame] ++ rest)%list
    /\ Forall (fun e => is_write e = false) rest.
Proof.
  intros Hdial Hpack frame. unfold query in Hpack.
  unfold DNSOverTCP. step. rewrite Hdial. cbv beta iota.
  match goal with
  | |- context [defer ?f ?b ?t0] =>
      assert (Hem : emits_from (fun e => is_write e = false) (defer f b)
                      [EPack; EWrite frame]);
      [| destruct (Hem t0) as [r [E F]] ]
  end.
  - apply emits_from_defer; [| emits_tail].
    intros t0. rewrite bind_unfold, call_Pack_run, Hpack. cbv beta iota zeta.
    cbn [app].
    match goal with
    | |- context [bind ?m ?k] =>
        destruct (emits_from_bind (fun e => is_write e = false) m k (EWrite frame))
          with (t := (t0 ++ [EPack])%list) as [r [E F]];
        [apply conn_Write_one | intros werr; emits_tail |]
    end.
    exists r. split; [| assumption].
    etransitivity; [exact E |]. flat. reflexivity.
  - exists r. split; [| assumption].
    etransitivity; [exact E |]. flat. reflexivity.
Qed.

(** When the peer takes the frame, the call goes on to read the two bytes
    of the response length. *)
Lemma DNSOverTCP_reads_after_write (p : Peer) (msgBytes : bytes) (t : list event) :
  dial env "tcp" (dnsServer ++ ":53") = DialOk p ->
  Pack (query domain qtype) = inl msgBytes ->
  let frame := to_byte (Z.shiftr (uint16 (len msgBytes)) 8)
               :: to_byte (Z.land (uint16 (len msgBytes)) 255)
               :: msgBytes in
  on_write p frame = WriteOk ->
  exists rest,
    fst (DNSOverTCP env domain dnsServer qtype t)
    = (t ++ [EDial "tcp" (dnsServer ++ ":53"); EPack; EWrite frame; ERead 2]
         ++ rest)%list.
Proof.
  intros Hdial Hpack frame Hwrite. unfold query in Hpack.
  unfold DNSOverTCP. step. rewrite Hdial. cbv beta iota.
  match goal with
  | |- context [defer ?f ?b ?t0] =>
      assert (Hem : emits_from (fun _ => True) (defer f b)
                      [EPack; EWrite frame; ERead 2]);
      [| destruct (Hem t0) as [r [E _]] ]
  end.
  - apply emits_from_defer; [| emits_tail; exact I].
    intros t0. step. rewrite Hpack. cbv beta iota zeta. cbn [app].
    step. cbn [conn_peer]. fold frame. rewrite Hwrite. cbv beta iota.
    match goal with
    | |- context [bind ?m ?k] =>
        destruct (emits_from_bind (fun _ => True) m k (ERead 2))
          with (t := ((t0 ++ [EPack]) ++ [EWrite frame])%list) as [r [E _]];
        [apply conn_Read_one | intros [[[c b] n] e]; emits_tail; exact I |]
    end.
    exists r. split; [| apply Forall_forall; intros; exact I].
    etransitivity; [exact E |]. flat. reflexivity.
  - exists r. etransitivity; [exact E |]. flat. reflexivity.
Qed.

(** When the write fails, the call returns the write error, closes the
    connection and reads nothing. *)
Lemma DNSOverTCP_write_error (p : Peer) (msgBytes : bytes) (cause : error)
  (t : list event) :
  dial env "tcp" (dnsServer ++ ":53") = DialOk p ->
  Pack (query domain qtype) = inl msgBytes ->
  let frame := to_byte (Z.shiftr (uint16 (len msgBytes)) 8)
               :: to_byte (Z.land (uint16 (len msgBytes)) 255)
               :: msgBytes in
  on_write p frame = WriteErr cause ->
  DNSOverTCP env domain dnsServer qtype t
  = ((t ++ [EDial "tcp" (dnsServer ++ ":53"); EPack; EWrite frame; EClose])%list,
     Returns (inr ("failed to send DNS query: " ++ cause))).
Proof.
  intros Hdial Hpack frame Hwrite. unfold query in Hpack.
  unfold DNSOverTCP. step. rewrite Hdial. cbv beta iota.
  step. step. rewrite Hpack. cbv beta iota zeta. cbn [app].
  step. cbn [conn_peer]. fold frame. rewrite Hwrite. cbv beta iota.
  cbn [ret]. rewrite conn_Close_run. cbn [fst]. flat. reflexivity.
Qed.

(** C8. Under the precondition that the encoded query is at most 65535
    bytes long, [DNSOverTCP] hands to a single [conn.Write] the two-byte
    prefix followed by the encoded message, unmodified; the prefix read as a
    big-endian unsigned 16-bit integer is the byte count of the message;
    nothing else is ever written; when the write succeeds (all bytes
    written) the call goes on to read, and when it fails the call returns
    the error "failed to send DNS query" having read nothing. *)
Theorem DNSOverTCP_frames_query (p : Peer) (msgBytes : bytes) (t : list event) :
  dial env "tcp" (dnsServer ++ ":53") = DialOk p ->
  Pack (query domain qtype) = inl msgBytes ->
  len msgBytes <= 65535 ->
  let hi := to_byte (Z.shiftr (uint16 (len msgBytes)) 8) in
  let lo := to_byte (Z.land (uint16 (len msgBytes)) 255) in
  let frame := hi :: lo :: msgBytes in
  let sent := [EDial "tcp" (dnsServer ++ ":53"); EPack; EWrite frame] in
  byte_val hi * 256 + byte_val lo = len msgBytes
  /\ skipn 2 frame = msgBytes
  /\ (exists rest,
        fst (DNSOverTCP env domain dnsServer qtype t) = (t ++ sent ++ rest)%list
        /\ Forall (fun e => is_write e = false) rest)
  /\ (on_write p frame = WriteOk ->
      exists rest,
        fst (DNSOverTCP env domain dnsServer qtype t)
        = (t ++ sent ++ ERead 2 :: rest)%list)
  /\ (forall cause, on_write p frame = WriteErr cause ->
        DNSOverTCP env domain dnsServer qtype t
        = ((t ++ sent ++ [EClose])%list,
           Returns (inr ("failed to send DNS query: " ++ cause)))).
Proof.
  intros Hdial Hpack Hlen hi lo frame sent.
  pose proof (len_nonneg msgBytes) as H0.
  repeat split.
  - unfold hi, lo, uint16. rewrite Z.mod_small by lia.
    apply prefix_big_endian. lia.
  - exact (DNSOverTCP_writes_frame p msgBytes t Hdial Hpack).
  - intros Hw.
    destruct (DNSOverTCP_reads_after_write p msgBytes t Hdial Hpack Hw) as [r E].
    exists r. exact E.
  - intros cause Hw.
    exact (DNSOverTCP_write_error p msgBytes cause t Hdial Hpack Hw).
Qed.

(** C10. When the encoded query is longer than 65535 bytes, [DNSOverTCP]
    does not fail: it writes a prefix that reads as the length modulo 65536,
    followed by the whole message, so the prefix disagrees with the length
    of the body; when the peer takes the frame the call goes on to read the
    response. *)
Theorem DNSOverTCP_oversize_query (p : Peer) (msgBytes : bytes) (t : list event) :
  dial env "tcp" (dnsServer ++ ":53") = DialOk p ->
  Pack (query domain qtype) = inl msgBytes ->
  65535 < len msgBytes ->
  let hi := to_byte (Z.shiftr (uint16 (len msgBytes)) 8) in
  let lo := to_byte (Z.land (uint16 (len msgBytes)) 255) in
  let frame := hi :: lo :: msgBytes in
  let sent := [EDial "tcp" (dnsServer ++ ":53"); EPack; EWrite frame] in
  byte_val hi * 256 + byte_val lo = len msgBytes mod 65536
  /\ byte_val hi * 256 + byte_val lo < len (skipn 2 frame)
  /\ skipn 2 frame = msgBytes
  /\ (exists rest,
        fst (DNSOverTCP env domain dnsServer qtype t) = (t ++ sent ++ rest)%list)
  /\ (on_write p frame = WriteOk ->
      exists rest,
        fst (DNSOverTCP env domain dnsServer qtype t)
        = (t ++ sent ++ ERead 2 :: rest)%list).
Proof.
  intros Hdial Hpack Hlen hi lo frame sent.
  assert (Hmod : 0 <= len msgBytes mod 65536 < 65536)
    by (apply Z.mod_pos_bound; lia).
  assert (Hpre : byte_val hi * 256 + byte_val lo = len msgBytes mod 65536)
    by (unfold hi, lo, uint16; apply prefix_big_endian; exact Hmod).
  repeat split.
  - exact Hpre.
  - rewrite Hpre. cbn [skipn frame]. lia.
  - destruct (DNSOverTCP_writes_frame p msgBytes t Hdial Hpack) as [r [E _]].
    exists r. exact E.
  - intros Hw.
    destruct (DNSOverTCP_reads_after_write p msgBytes t Hdial Hpack Hw) as [r E].
    exists r. exact E.
Qed.

(** ** StreamTransport: order of the dial and the encoding *)

(** C9, as amended. [DNSOverTCP] opens the connection to [dnsServer:53]
    before it encodes the query: the dial is the first thing every call
    does; when the dial fails the query is never encoded; when the encoding
    fails the connection has been opened already, and the call closes it and
    returns the error "failed to pack DNS message". *)
Theorem DNSOverTCP_connects_then_encodes (t : list event) :
  (exists rest,
     fst (DNSOverTCP env domain dnsServer qtype t)
     = (t ++ EDial "tcp" (dnsServer ++ ":53") :: rest)%list)
  /\ (forall cause,
        dial env "tcp" (dnsServer ++ ":53") = DialErr cause ->
        DNSOverTCP env domain dnsServer qtype t
        = ((t ++ [EDial "tcp" (dnsServer ++ ":53")])%list,
           Returns (inr ("failed to connect to DNS server: " ++ cause))))
  /\ (forall p err,
        dial env "tcp" (dnsServer ++ ":53") = DialOk p ->
        Pack (query domain qtype) = inr err ->
        DNSOverTCP env domain dnsServer qtype t
        = ((t ++ [EDial "tcp" (dnsServer ++ ":53"); EPack; EClose])%list,
           Returns (inr ("failed to pack DNS message: " ++ err)))).
Proof.
  split; [apply DNSOverTCP_dials_first | split].
  - intros cause Hdial. unfold DNSOverTCP. step. rewrite Hdial. reflexivity.
  - intros p err Hdial Hpack. unfold query in Hpack.
    unfold DNSOverTCP. step. rewrite Hdial. cbv beta iota.
    step. step. rewrite Hpack. cbv beta iota.
    cbn [ret]. rewrite conn_Close_run. cbn [fst]. flat. reflexivity.
Qed.

End TCP.

Example DNSOverTCP_stub_run :
  DNSOverTCP (codec := rawCodec) stub_world "example.com" "8.8.8.8" TypeA []
  = ([EDial "tcp" "8.8.8.8:53"; EPack;
      EWrite (x00 :: x0c :: list_byte_of_string "example.com.");
      ERead 2; ERead 4; EUnpack [x01; x02; x03; x04]; EClose],
     Returns (inl [x01; x02; x03; x04])).
Proof. vm_compute. reflexivity. Qed.

Lemma DNSOverTCP_frames_query_witness :
  let msgBytes := list_byte_of_string "example.com." in
  let hi := to_byte (Z.shiftr (uint16 (len msgBytes)) 8) in
  let lo := to_byte (Z.land (uint16 (len msgBytes)) 255) in
  let frame := hi :: lo :: msgBytes in
  let sent := [EDial "tcp" ("8.8.8.8" ++ ":53"); EPack; EWrite frame] in
  let run := DNSOverTCP (codec := rawCodec) stub_world "example.com" "8.8.8.8"
                        TypeA [] in
  len msgBytes <= 65535
  /\ byte_val hi * 256 + byte_val lo = len msgBytes
  /\ skipn 2 frame = msgBytes
  /\ (exists rest,
        fst run = ([] ++ sent ++ rest)%list
        /\ Forall (fun e => is_write e = false) rest)
  /\ (on_write stub_server frame = WriteOk ->
      exists rest, fst run = ([] ++ sent ++ ERead 2 :: rest)%list)
  /\ (forall cause, on_write stub_server frame = WriteErr cause ->
        run = (([] ++ sent ++ [EClose])%list,
               Returns (inr ("failed to send DNS query: " ++ cause)))).
Proof.
  split; [vm_compute; discriminate |].
  apply (DNSOverTCP_frames_query (codec := rawCodec) stub_world "example.com"
           "8.8.8.8" TypeA stub_server (list_byte_of_string "example.com.") []).
  - reflexivity.
  - reflexivity.
  - vm_compute. discriminate.
Defined.

(** A query of 65541 bytes, sent to the stub server. *)
Lemma DNSOverTCP_oversize_query_witness :
  let msgBytes := repeat x2e (Z.to_nat 65541) in
  let hi := to_byte (Z.shiftr (uint16 (len msgBytes)) 8) in
  let lo := to_byte (Z.land (uint16 (len msgBytes)) 255) in
  let frame := hi :: lo :: msgBytes in
  let sent := [EDial "tcp" ("8.8.8.8" ++ ":53"); EPack; EWrite frame] in
  let run := DNSOverTCP (codec := oversizeCodec) stub_world "example.com"
                        "8.8.8.8" TypeA [] in
  65535 < len msgBytes
  /\ byte_val hi * 256 + byte_val lo = len msgBytes mod 65536
  /\ byte_val hi * 256 + byte_val lo < len (skipn 2 frame)
  /\ skipn 2 frame = msgBytes
  /\ (exists rest, fst run = ([] ++ sent ++ rest)%list)
  /\ (on_write stub_server frame = WriteOk ->
      exists rest, fst run = ([] ++ sent ++ ERead 2 :: rest)%list).
Proof.
  split; [vm_compute; reflexivity |].
  apply (DNSOverTCP_oversize_query (codec := oversizeCodec) stub_world
           "example.com" "8.8.8.8" TypeA stub_server
           (repeat x2e (Z.to_nat 65541)) []).
  - reflexivity.
  - reflexivity.
  - vm_compute. reflexivity.
Defined.

(** The oversize query goes through: the call returns the decoded response. *)
Example DNSOverTCP_oversize_run :
  snd (DNSOverTCP (codec := oversizeCodec) stub_world "example.com" "8.8.8.8"
                  TypeA [])
  = Returns (inl [x01; x02; x03; x04]).
Proof. vm_compute. reflexivity. Qed.

(** C9, the claim as stated fails: the codec rejects the query, and the
    call has dialled (and then closed) a connection before it returns the
    encoding error. *)
Lemma DNSOverTCP_pack_error_after_dial :
  DNSOverTCP (codec := rejectingCodec) stub_world "example.com" "8.8.8.8" TypeA []
  = ([EDial "tcp" "8.8.8.8:53"; EPack; EClose],
     Returns (inr "failed to pack DNS message: dns: bad rdata")).
Proof. vm_compute. reflexivity. Qed.

Lemma DNSOverTCP_connects_then_encodes_witness :
  dial stub_world "tcp" ("8.8.8.8" ++ ":53") = DialOk stub_server
  /\ Pack (DNS := rejectingCodec) (query "example.com" TypeA) = inr "dns: bad rdata"
  /\ DNSOverTCP (codec := rejectingCodec) stub_world "example.com" "8.8.8.8"
                TypeA []
     = ([EDial "tcp" ("8.8.8.8" ++ ":53"); EPack; EClose],
        Returns (inr ("failed to pack DNS message: " ++ "dns: bad rdata"))).
Proof.
  split; [reflexivity | split; [reflexivity |]].
  apply (proj2 (proj2 (DNSOverTCP_connects_then_encodes
                         (codec := rejectingCodec) stub_world "example.com"
                         "8.8.8.8" TypeA [])) stub_server "dns: bad rdata");
    reflexivity.
Defined.

(** ** StreamTransport: the two reads of the response *)

(** C1, on the code. The body is read with one [conn.Read]. When the peer
    delivers the four-byte body in two segments, the decoder receives the
    first segment followed by zero bytes, not the body; when the peer closes
    after one byte of the four, the call still decodes that buffer and
    reports no error. *)
Theorem DNSOverTCP_decodes_partial_body :
  DNSOverTCP (codec := rawCodec)
    (world (DialOk (server [[x00; x04]; [x01]; [x02; x03; x04]] Closed)) NoResponse)
    "example.com" "8.8.8.8" TypeA []
  = ([EDial "tcp" "8.8.8.8:53"; EPack;
      EWrite (x00 :: x0c :: list_byte_of_string "example.com.");
      ERead 2; ERead 4; EUnpack [x01; x00; x00; x00]; EClose],
     Returns (inl [x01; x00; x00; x00]))
  /\
  DNSOverTCP (codec := rawCodec)
    (world (DialOk (server [[x00; x04]; [x01]] Closed)) NoResponse)
    "example.com" "8.8.8.8" TypeA []
  = ([EDial "tcp" "8.8.8.8:53"; EPack;
      EWrite (x00 :: x0c :: list_byte_of_string "example.com.");
      ERead 2; ERead 4; EUnpack [x01; x00; x00; x00]; EClose],
     Returns (inl [x01; x00; x00; x00])).
Proof. split; vm_compute; reflexivity. Qed.

(** C4, on the code. The length prefix is read with one [conn.Read]. When
    the two prefix bytes [00 04] arrive in two segments, the call takes the
    length to be 0 and decodes an empty buffer; when the peer closes after
    one prefix byte, the call reports no error reading the length. *)
Theorem DNSOverTCP_reads_partial_prefix :
  DNSOverTCP (codec := rawCodec)
    (world (DialOk (server [[x00]; [x04]; [x01; x02; x03; x04]] Closed)) NoResponse)
    "example.com" "8.8.8.8" TypeA []
  = ([EDial "tcp" "8.8.8.8:53"; EPack;
      EWrite (x00 :: x0c :: list_byte_of_string "example.com.");
      ERead 2; ERead 0; EUnpack []; EClose],
     Returns (inl []))
  /\
  DNSOverTCP (codec := rawCodec)
    (world (DialOk (server [[x00]] Closed)) NoResponse)
    "example.com" "8.8.8.8" TypeA []
  = ([EDial "tcp" "8.8.8.8:53"; EPack;
      EWrite (x00 :: x0c :: list_byte_of_string "example.com.");
      ERead 2; ERead 0; EUnpack []; EClose],
     Returns (inl [])).
Proof. split; vm_compute; reflexivity. Qed.

(** ** base64url without padding *)

Module Base64.

(** Induction on a byte string three bytes at a time. *)
Lemma list_ind3 {A : Type} (P : list A -> Prop) :
  P [] ->
  (forall a, P [a]) ->
  (forall a b, P [a; b]) ->
  (forall a b c l, P l -> P (a :: b :: c :: l)) ->
  forall l, P l.
Proof.
  intros H0 H1 H2 H3. fix IH 1.
  intros [| a [| b [| c l]]].
  - exact H0.
  - apply H1.
  - apply H2.
  - apply H3, IH.
Qed.

(** [a | b] adds when the [k] low bits of [a] are zero and [b] fits in them. *)
Lemma lor_add_low (a b k : Z) :
  0 <= k -> 0 <= b < 2 ^ k -> a mod 2 ^ k = 0 -> Z.lor a b = a + b.
Proof.
  intros Hk Hb Ha.
  assert (Hpos : 0 < 2 ^ k) by (apply Z.pow_pos_nonneg; lia).
  assert (E : a = Z.shiftl (a / 2 ^ k) k).
  { rewrite Z.shiftl_mul_pow2 by assumption.
    pose proof (Z.div_mod a (2 ^ k)). lia. }
  rewrite E at 1. rewrite lor_shiftl_add by assumption.
  pose proof (Z.div_mod a (2 ^ k)). lia.
Qed.

Lemma sextet_bounded (x : Z) : 0 <= Z.land x 63 < 64.
Proof.
  change 63 with (Z.ones 6). rewrite Z.land_ones by lia.
  apply Z.mod_pos_bound. lia.
Qed.

(** The six-bit groups of a 24-bit value, joined again. *)
Lemma sextets_join (v : Z) :
  0 <= v < 2 ^ 24 ->
  Z.lor (Z.lor (Z.lor (Z.shiftl (Z.land (Z.shiftr v 18) 63) 18)
                      (Z.shiftl (Z.land (Z.shiftr v 12) 63) 12))
               (Z.shiftl (Z.land (Z.shiftr v 6) 63) 6))
        (Z.land v 63) = v.
Proof.
  intros Hv.
  change 63 with (Z.ones 6). rewrite !Z.land_ones by lia.
  rewrite !Z.shiftr_div_pow2, !Z.shiftl_mul_pow2 by lia.
  change (2 ^ 24) with 16777216 in Hv.
  change (2 ^ 18) with 262144. change (2 ^ 12) with 4096. change (2 ^ 6) with 64.
  set (s0 := (v / 262144) mod 64). set (s1 := (v / 4096) mod 64).
  set (s2 := (v / 64) mod 64). set (s3 := v mod 64).
  assert (B0 : 0 <= s0 < 64) by (apply Z.mod_pos_bound; lia).
  assert (B1 : 0 <= s1 < 64) by (apply Z.mod_pos_bound; lia).
  assert (B2 : 0 <= s2 < 64) by (apply Z.mod_pos_bound; lia).
  assert (B3 : 0 <= s3 < 64) by (apply Z.mod_pos_bound; lia).
  rewrite (lor_add_low (s0 * 262144) (s1 * 4096) 18);
    [| lia | change (2 ^ 18) with 262144; lia
     | change (2 ^ 18) with 262144; apply Z.mod_mul; lia ].
  rewrite (lor_add_low (s0 * 262144 + s1 * 4096) (s2 * 64) 12);
    [| lia | change (2 ^ 12) with 4096; lia
     | change (2 ^ 12) with 4096;
       replace (s0 * 262144 + s1 * 4096) with ((s0 * 64 + s1) * 4096) by lia;
       apply Z.mod_mul; lia ].
  rewrite (lor_add_low (s0 * 262144 + s1 * 4096 + s2 * 64) s3 6);
    [| lia | change (2 ^ 6) with 64; lia
     | change (2 ^ 6) with 64;
       replace (s0 * 262144 + s1 * 4096 + s2 * 64)
         with ((s0 * 4096 + s1 * 64 + s2) * 64) by lia;
       apply Z.mod_mul; lia ].
  unfold s0, s1, s2, s3.
  pose proof (Z.div_mod v 262144). pose proof (Z.div_mod v 4096).
  pose proof (Z.div_mod v 64).
  pose proof (Z.div_mod (v / 262144) 64). pose proof (Z.div_mod (v / 4096) 64).
  pose proof (Z.div_mod (v / 64) 64).
  assert (v / 262144 = v / 4096 / 64) by (rewrite Z.div_div by lia; reflexivity).
  assert (v / 4096 = v / 64 / 64) by (rewrite Z.div_div by lia; reflexivity).
  assert (0 <= v / 262144 < 64)
    by (split; [apply Z.div_pos; lia | apply Z.div_lt_upper_bound; lia]).
  lia.
Qed.

(** The three bytes of a group, packed into 24 bits. *)
Lemma pack3 (b0 b1 b2 : byte) :
  Z.lor (Z.lor (Z.shiftl (byte_val b0) 16) (Z.shiftl (byte_val b1) 8))
        (byte_val b2)
  = byte_val b0 * 65536 + byte_val b1 * 256 + byte_val b2.
Proof.
  pose proof (byte_val_bounded b0). pose proof (byte_val_bounded b1).
  pose proof (byte_val_bounded b2).
  rewrite !Z.shiftl_mul_pow2 by lia.
  change (2 ^ 16) with 65536. change (2 ^ 8) with 256.
  rewrite (lor_add_low (byte_val b0 * 65536) (byte_val b1 * 256) 16);
    [| lia | change (2 ^ 16) with 65536; lia
     | change (2 ^ 16) with 65536; apply Z.mod_mul; lia ].
  rewrite (lor_add_low _ (byte_val b2) 8);
    [reflexivity | lia | change (2 ^ 8) with 256; lia |].
  change (2 ^ 8) with 256.
  replace (byte_val b0 * 65536 + byte_val b1 * 256)
    with ((byte_val b0 * 256 + byte_val b1) * 256) by lia.
  apply Z.mod_mul. lia.
Qed.

Lemma to_byte_eq (z : Z) (b : byte) : z mod 256 = byte_val b -> to_byte z = b.
Proof.
  intros H. rewrite <- (to_byte_byte_val b). unfold to_byte.
  rewrite H. pose proof (byte_val_bounded b).
  rewrite (Z.mod_small (byte_val b)) by lia. reflexivity.
Qed.

(** The bytes of a packed group, as the decoder extracts them. *)
Lemma unpack3 (b0 b1 b2 : byte) :
  let v := byte_val b0 * 65536 + byte_val b1 * 256 + byte_val b2 in
  to_byte (Z.shiftr v 16) = b0 /\ to_byte (Z.shiftr v 8) = b1 /\ to_byte v = b2.
Proof.
  pose proof (byte_val_bounded b0). pose proof (byte_val_bounded b1).
  pose proof (byte_val_bounded b2).
  intros v. rewrite !Z.shiftr_div_pow2 by lia.
  change (2 ^ 16) with 65536. change (2 ^ 8) with 256.
  repeat split; apply to_byte_eq; unfold v.
  - replace (byte_val b0 * 65536 + byte_val b1 * 256 + byte_val b2)
      with (byte_val b0 * 65536 + (byte_val b1 * 256 + byte_val b2)) by lia.
    rewrite Z.div_add_l by lia. rewrite (Z.div_small (_ + _)) by lia.
    rewrite Z.mod_small; lia.
  - replace (byte_val b0 * 65536 + byte_val b1 * 256 + byte_val b2)
      with ((byte_val b0 * 256 + byte_val b1) * 256 + byte_val b2) by lia.
    rewrite Z.div_add_l by lia. rewrite (Z.div_small (byte_val b2)) by lia.
    rewrite Z.add_0_r, Z.add_comm, Z.mod_add by lia.
    apply Z.mod_small; lia.
  - replace (byte_val b0 * 65536 + byte_val b1 * 256 + byte_val b2)
      with (byte_val b2 + (byte_val b0 * 256 + byte_val b1) * 256) by lia.
    rewrite Z.mod_add by lia. apply Z.mod_small; lia.
Qed.

(** *** The alphabet *)

Lemma sextet_check_all :
  forallb sextet_check (map Z.of_nat (seq 0 64)) = true.
Proof. vm_compute. reflexivity. Qed.

Lemma sextet_checked (i : Z) : 0 <= i < 64 -> sextet_check i = true.
Proof.
  intros Hi.
  apply (proj1 (forallb_forall sextet_check _) sextet_check_all).
  apply in_map_iff. exists (Z.to_nat i). split; [lia |].
  apply in_seq. lia.
Qed.

Lemma decodeMap_encode_at (i : Z) :
  0 <= i < 64 ->
  decodeMap RawURLEncoding (encode_at RawURLEncoding i) = Some i.
Proof.
  intros Hi. pose proof (sextet_checked i Hi) as H. unfold sextet_check in H.
  cbv zeta in H.
  destruct (decodeMap RawURLEncoding (encode_at RawURLEncoding i)) as [j|];
    [| discriminate].
  apply andb_prop in H. destruct H as [H _].
  apply andb_prop in H. destruct H as [H _].
  apply Z.eqb_eq in H. congruence.
Qed.

Lemma url_char_plain (c : byte) :
  url_char c ->
  c <> StdPadding /\ negb (Byte.eqb c x0a || Byte.eqb c x0d) = true.
Proof.
  intros [i [Hi ->]]. pose proof (sextet_checked i Hi) as H.
  unfold sextet_check in H. cbv zeta in H.
  destruct (decodeMap RawURLEncoding (encode_at RawURLEncoding i)) as [j|];
    [| discriminate].
  apply andb_prop in H. destruct H as [H Hnl].
  apply andb_prop in H. destruct H as [_ Hpad].
  split; [| exact Hnl].
  intros E. rewrite E in Hpad. rewrite (Byte.byte_dec_lb eq_refl) in Hpad.
  discriminate.
Qed.

Lemma url_char_sextet (x : Z) :
  url_char (encode_at RawURLEncoding (Z.land x 63)).
Proof. exists (Z.land x 63). split; [apply sextet_bounded | reflexivity]. Qed.

(** Every character [RawURLEncoding] writes is a character of the alphabet. *)
Lemma Encode_chars (src : bytes) : Forall url_char (Encode RawURLEncoding src).
Proof.
  induction src as [| a | a b | a b c l IH] using list_ind3;
    cbn [Encode padding RawURLEncoding WithPadding padChar];
    repeat constructor; try apply url_char_sextet.
  exact IH.
Qed.

Lemma strip_newlines_Encode (src : bytes) :
  strip_newlines (Encode RawURLEncoding src) = Encode RawURLEncoding src.
Proof.
  unfold strip_newlines.
  pose proof (Encode_chars src) as H.
  induction H as [| c l Hc Hl IH]; [reflexivity |].
  cbn [filter]. rewrite (proj2 (url_char_plain c Hc)), IH. reflexivity.
Qed.

(** *** Round trip *)

Lemma decode_quanta_Encode (src : bytes) :
  decode_quanta RawURLEncoding (Encode RawURLEncoding src) = Some src.
Proof.
  induction src as [| a | a b | a b c l IH] using list_ind3.
  - reflexivity.
  - cbn [Encode padding RawURLEncoding WithPadding padChar decode_quanta].
    fold RawURLEncoding.
    rewrite !decodeMap_encode_at by apply sextet_bounded.
    pose proof (byte_val_bounded a) as Ha.
    set (v := Z.shiftl (byte_val a) 16).
    assert (Ev : v = byte_val a * 65536 + byte_val x00 * 256 + byte_val x00)
      by (unfold v; rewrite Z.shiftl_mul_pow2 by lia; cbn; lia).
    pose proof (sextets_join v) as J.
    assert (Z2 : Z.land (Z.shiftr v 6) 63 = 0).
    { change 63 with (Z.ones 6). rewrite Z.land_ones, Z.shiftr_div_pow2 by lia.
      rewrite Ev. change (2 ^ 6) with 64. cbn [byte_val Byte.to_N Z.of_N].
      replace (byte_val a * 65536 + 0 * 256 + 0) with (byte_val a * 1024 * 64) by lia.
      rewrite Z.div_mul by lia.
      replace (byte_val a * 1024) with (byte_val a * 16 * 64) by lia.
      apply Z.mod_mul. lia. }
    assert (Z3 : Z.land v 63 = 0).
    { change 63 with (Z.ones 6). rewrite Z.land_ones by lia.
      rewrite Ev. change (2 ^ 6) with 64. cbn [byte_val Byte.to_N Z.of_N].
      replace (byte_val a * 65536 + 0 * 256 + 0) with (byte_val a * 1024 * 64) by lia.
      apply Z.mod_mul. lia. }
    rewrite Z2, Z3, Z.shiftl_0_l, !Z.lor_0_r in J.
    rewrite J by (rewrite Ev; cbn [byte_val Byte.to_N Z.of_N]; change (2 ^ 24) with 16777216; lia).
    rewrite Ev. destruct (unpack3 a x00 x00) as [E0 _]. rewrite E0. reflexivity.
  - cbn [Encode padding RawURLEncoding WithPadding padChar decode_quanta].
    fold RawURLEncoding.
    rewrite !decodeMap_encode_at by apply sextet_bounded.
    pose proof (byte_val_bounded a) as Ha. pose proof (byte_val_bounded b) as Hb.
    set (v := Z.lor (Z.shiftl (byte_val a) 16) (Z.shiftl (byte_val b) 8)).
    assert (Ev : v = byte_val a * 65536 + byte_val b * 256 + byte_val x00).
    { unfold v. rewrite <- (pack3 a b x00). cbn [byte_val Byte.to_N Z.of_N].
      rewrite Z.lor_0_r. reflexivity. }
    pose proof (sextets_join v) as J.
    assert (Z3 : Z.land v 63 = 0).
    { change 63 with (Z.ones 6). rewrite Z.land_ones by lia.
      rewrite Ev. change (2 ^ 6) with 64. cbn [byte_val Byte.to_N Z.of_N].
      replace (byte_val a * 65536 + byte_val b * 256 + 0)
        with ((byte_val a * 1024 + byte_val b * 4) * 64) by lia.
      apply Z.mod_mul. lia. }
    rewrite Z3, Z.lor_0_r in J.
    rewrite J by (rewrite Ev; cbn [byte_val Byte.to_N Z.of_N]; change (2 ^ 24) with 16777216; lia).
    rewrite Ev. destruct (unpack3 a b x00) as [E0 [E1 _]]. rewrite E0, E1.
    reflexivity.
  - cbn [Encode decode_quanta].
    rewrite !decodeMap_encode_at by apply sextet_bounded.
    rewrite IH.
    pose proof (byte_val_bounded a) as Ha. pose proof (byte_val_bounded b) as Hb.
    pose proof (byte_val_bounded c) as Hc.
    rewrite pack3.
    rewrite sextets_join by (change (2 ^ 24) with 16777216; lia).
    destruct (unpack3 a b c) as [E0 [E1 E2]]. rewrite E0, E1, E2.
    reflexivity.
Qed.

(** What [RawURLEncoding] encodes decodes back to the same bytes. *)
Lemma DecodeString_EncodeToString (src : bytes) :
  DecodeString RawURLEncoding (EncodeToString RawURLEncoding src) = Some src.
Proof.
  unfold DecodeString, EncodeToString, string_of_bytes.
  rewrite list_byte_of_string_of_list_byte, strip_newlines_Encode.
  apply decode_quanta_Encode.
Qed.

(** The encoded string has no padding character. *)
Lemma EncodeToString_no_padding (src : bytes) (c : byte) :
  In c (list_byte_of_string (EncodeToString RawURLEncoding src)) ->
  c <> StdPadding.
Proof.
  unfold EncodeToString, string_of_bytes.
  rewrite list_byte_of_string_of_list_byte. intros Hin.
  pose proof (Encode_chars src) as H.
  rewrite Forall_forall in H. apply url_char_plain, H, Hin.
Qed.

End Base64.

(** ** WebTransport *)

Lemma client_Do_run (env : Env) (req : Request) (t : list event) :
  client_Do env {| Timeout := 0 |} req t
  = ((t ++ [EDo req])%list,
     match round_trip env req with
     | Responds status code body =>
         Returns (inl {| Status := status; StatusCode := code;
                         Body := {| content := body; body_deadline := None |} |})
     | TransportErr cause => Returns (inr cause)
     | NoResponse => Blocks
     end).
Proof.
  unfold client_Do. rewrite bind_unfold. cbn.
  destruct (round_trip env req); reflexivity.
Qed.

Section DoH.

Context {codec : DNS}.
Variables (env : Env) (domain dohURL : string) (qtype : Z).

(** The whole run of [DNSOverHTTPS], once the query is encoded and the
    request is built, by what the server does. *)
Lemma DNSOverHTTPS_run (msgBytes : bytes) (t : list event) :
  Pack (query domain qtype) = inl msgBytes ->
  url_error env (URL (doh_request dohURL msgBytes)) = None ->
  let req := doh_request dohURL msgBytes in
  DNSOverHTTPS env domain dohURL qtype t
  = match round_trip env req with
    | TransportErr cause =>
        ((t ++ [EPack; EDo req])%list,
         Returns (inr ("HTTP request failed: " ++ cause)))
    | NoResponse => ((t ++ [EPack; EDo req])%list, Blocks)
    | Responds status code body =>
        let data := List.concat (chunks body) in
        match fin body with
        | Silent => ((t ++ [EPack; EDo req; EReadAll])%list, Blocks)
        | Closed =>
            if (code =? StatusOK)%Z then
              ((t ++ [EPack; EDo req; EReadAll; EUnpack data; EBodyClose])%list,
               Returns match Unpack data with
                       | inl respMsg => inl respMsg
                       | inr err => inr ("failed to unpack DNS response: " ++ err)
                       end)
            else
              ((t ++ [EPack; EDo req; EReadAll; EBodyClose])%list,
               Returns (inr (non_OK status data)))
        | Failed cause =>
            ((t ++ [EPack; EDo req; EReadAll; EBodyClose])%list,
             Returns (inr (if (code =? StatusOK)%Z
                           then "failed to read DNS response: " ++ cause
                           else non_OK status data)))
        end
    end.
Proof.
  intros Hpack Hurl req. unfold query in Hpack. cbn [doh_request URL] in Hurl.
  unfold DNSOverHTTPS. step. rewrite Hpack. cbv beta iota zeta.
  unfold http_NewRequest. rewrite Hurl. cbv beta iota.
  unfold Header_Set. cbn [Method URL Header filter]. fold (doh_request dohURL msgBytes).
  fold req. rewrite bind_unfold, client_Do_run.
  destruct (round_trip env req) as [status code body | cause |];
    cbv beta iota; [| flat; reflexivity | flat; reflexivity].
  step. cbn [StatusCode Status Body].
  destruct (code =? StatusOK)%Z; cbn [negb]; cbv beta iota zeta;
    step; cbn [content body_deadline];
    destruct (fin body) as [| cause |]; cbv beta iota;
    try (flat; reflexivity).
  - step. destruct (Unpack (List.concat (chunks body)));
      cbn [ret]; rewrite Body_Close_run; cbn [fst]; flat; reflexivity.
  - cbn [ret]. rewrite Body_Close_run. cbn [fst]. flat. reflexivity.
  - cbn [ret]. rewrite Body_Close_run. cbn [fst]. flat. reflexivity.
  - cbn [ret]. rewrite Body_Close_run. cbn [fst]. flat. reflexivity.
Qed.

(** C7. Once the query is encoded and the request built, [DNSOverHTTPS]
    sends one request, a GET whose URL is [dohURL] followed by [?dns=] and
    the base64url encoding of the packed query, with the header
    [Accept: application/dns-message] and no other; the value of [dns]
    has no padding character '=' and decodes back to exactly the packed
    bytes. *)
Theorem DNSOverHTTPS_request (msgBytes : bytes) (t : list event) :
  Pack (query domain qtype) = inl msgBytes ->
  url_error env (URL (doh_request dohURL msgBytes)) = None ->
  let encoded := EncodeToString RawURLEncoding msgBytes in
  let req := {| Method := "GET";
                URL := dohURL ++ "?dns=" ++ encoded;
                Header := [("Accept", "application/dns-message")] |} in
  (exists rest,
     fst (DNSOverHTTPS env domain dohURL qtype t)
     = (t ++ [EPack; EDo req] ++ rest)%list
     /\ Forall (fun e => is_do e = false) rest)
  /\ (forall c, In c (list_byte_of_string encoded) -> c <> StdPadding)
  /\ DecodeString RawURLEncoding encoded = Some msgBytes.
Proof.
  intros Hpack Hurl encoded req. split; [| split].
  - rewrite (DNSOverHTTPS_run msgBytes t Hpack Hurl).
    fold encoded. change (doh_request dohURL msgBytes) with req. cbv zeta.
    destruct (round_trip env req) as [status code body | cause |].
    + destruct (fin body); [destruct (code =? StatusOK)%Z | |];
        cbn [fst]; eexists; (split; [reflexivity | repeat constructor]).
    + cbn [fst]. exists []. split; [reflexivity | constructor].
    + cbn [fst]. exists []. split; [reflexivity | constructor].
  - apply Base64.EncodeToString_no_padding.
  - apply Base64.DecodeString_EncodeToString.
Qed.

(** C6. For every response whose status code is not 200, [DNSOverHTTPS]
    never calls the decoder, and, the body once read, returns the error
    "DoH server returned non-OK status" with the status and the text of the
    body. *)
Theorem DNSOverHTTPS_non_OK_status (msgBytes : bytes) (status : string) (code : Z)
  (body : stream) (t : list event) :
  Pack (query domain qtype) = inl msgBytes ->
  url_error env (URL (doh_request dohURL msgBytes)) = None ->
  round_trip env (doh_request dohURL msgBytes) = Responds status code body ->
  code <> StatusOK ->
  Forall (fun e => is_unpack e = false)
         (trace_of (DNSOverHTTPS env domain dohURL qtype))
  /\ (fin body <> Silent ->
      DNSOverHTTPS env domain dohURL qtype t
      = ((t ++ [EPack; EDo (doh_request dohURL msgBytes); EReadAll;
                EBodyClose])%list,
         Returns (inr ("DoH server returned non-OK status: " ++ status
                       ++ ", body: "
                       ++ string_of_bytes (List.concat (chunks body)))))).
Proof.
  intros Hpack Hurl Hresp Hcode.
  apply Z.eqb_neq in Hcode. split.
  - unfold trace_of. rewrite (DNSOverHTTPS_run msgBytes [] Hpack Hurl).
    cbv zeta. rewrite Hresp, Hcode.
    destruct (fin body); cbn [fst app]; repeat constructor.
  - intros Hfin. rewrite (DNSOverHTTPS_run msgBytes t Hpack Hurl).
    cbv zeta. rewrite Hresp, Hcode.
    destruct (fin body); [reflexivity | reflexivity | contradiction].
Qed.

(** C5, as amended. The success-path read of the body has no size guard:
    for every response with status 200, whatever the length of its body,
    the whole body is read and handed to the decoder, and the call returns
    what the decoder returns. *)
Theorem DNSOverHTTPS_reads_whole_body (msgBytes : bytes) (status : string)
  (body : stream) (t : list event) :
  Pack (query domain qtype) = inl msgBytes ->
  url_error env (URL (doh_request dohURL msgBytes)) = None ->
  round_trip env (doh_request dohURL msgBytes) = Responds status StatusOK body ->
  fin body = Closed ->
  DNSOverHTTPS env domain dohURL qtype t
  = ((t ++ [EPack; EDo (doh_request dohURL msgBytes); EReadAll;
            EUnpack (List.concat (chunks body)); EBodyClose])%list,
     Returns match Unpack (List.concat (chunks body)) with
             | inl respMsg => inl respMsg
             | inr err => inr ("failed to unpack DNS response: " ++ err)
             end).
Proof.
  intros Hpack Hurl Hresp Hfin.
  rewrite (DNSOverHTTPS_run msgBytes t Hpack Hurl).
  cbv zeta. rewrite Hresp, Hfin. reflexivity.
Qed.

(** The client has no timeout: the call to such a server does not return. *)
Lemma DNSOverHTTPS_blocks (msgBytes : bytes) (t : list event) :
  Pack (query domain qtype) = inl msgBytes ->
  url_error env (URL (doh_request dohURL msgBytes)) = None ->
  never_responds (round_trip env (doh_request dohURL msgBytes)) ->
  snd (DNSOverHTTPS env domain dohURL qtype t) = Blocks.
Proof.
  intros Hpack Hurl Hsilent.
  rewrite (DNSOverHTTPS_run msgBytes t Hpack Hurl). cbv zeta.
  destruct (round_trip env (doh_request dohURL msgBytes));
    cbn [never_responds] in Hsilent; [| contradiction | reflexivity].
  rewrite Hsilent. reflexivity.
Qed.

End DoH.

(** *** WebTransport on stub servers *)

Example DNSOverHTTPS_stub_run :
  DNSOverHTTPS (codec := rawCodec) (http_world ok_response) "example.com"
               cloudflare TypeA []
  = ([EPack;
      EDo {| Method := "GET";
             URL := "https://cloudflare-dns.com/dns-query?dns=ZXhhbXBsZS5jb20u";
             Header := [("Accept", "application/dns-message")] |};
      EReadAll; EUnpack [x01; x02; x03; x04]; EBodyClose],
     Returns (inl [x01; x02; x03; x04])).
Proof. vm_compute. reflexivity. Qed.

Lemma DNSOverHTTPS_request_witness :
  let msgBytes := list_byte_of_string "example.com." in
  let encoded := EncodeToString RawURLEncoding msgBytes in
  let req := {| Method := "GET";
                URL := cloudflare ++ "?dns=" ++ encoded;
                Header := [("Accept", "application/dns-message")] |} in
  encoded = "ZXhhbXBsZS5jb20u"
  /\ (exists rest,
        fst (DNSOverHTTPS (codec := rawCodec) (http_world ok_response)
                          "example.com" cloudflare TypeA [])
        = ([] ++ [EPack; EDo req] ++ rest)%list
        /\ Forall (fun e => is_do e = false) rest)
  /\ (forall c, In c (list_byte_of_string encoded) -> c <> StdPadding)
  /\ DecodeString RawURLEncoding encoded = Some msgBytes.
Proof.
  split; [vm_compute; reflexivity |].
  apply (DNSOverHTTPS_request (codec := rawCodec) (http_world ok_response)
           "example.com" cloudflare TypeA
           (list_byte_of_string "example.com.") []);
    reflexivity.
Defined.

Lemma DNSOverHTTPS_non_OK_status_witness :
  let run := DNSOverHTTPS (codec := rawCodec) (http_world error_response)
                          "example.com" cloudflare TypeA in
  500 <> StatusOK
  /\ Forall (fun e => is_unpack e = false) (trace_of run)
  /\ run []
     = ([EPack;
         EDo (doh_request cloudflare (list_byte_of_string "example.com."));
         EReadAll; EBodyClose],
        Returns (inr "DoH server returned non-OK status: 500 Internal Server Error, body: oops")).
Proof.
  split; [discriminate |].
  destruct (DNSOverHTTPS_non_OK_status (codec := rawCodec)
              (http_world error_response) "example.com" cloudflare TypeA
              (list_byte_of_string "example.com.")
              "500 Internal Server Error" 500
              {| chunks := [list_byte_of_string "oops"]; fin := Closed |} []
              eq_refl eq_refl eq_refl ltac:(discriminate)) as [Hdec Hret].
  split; [exact Hdec |].
  apply Hret. discriminate.
Defined.

(** C5, the claim as stated fails: a body of 65537 bytes, longer than
    64 KiB, is read whole and handed to the decoder, and the call succeeds. *)
Lemma DNSOverHTTPS_decodes_big_body :
  65536 < len big_body
  /\ DNSOverHTTPS (codec := rawCodec) (http_world big_response) "example.com"
                  cloudflare TypeA []
     = ([EPack;
         EDo (doh_request cloudflare (list_byte_of_string "example.com."));
         EReadAll; EUnpack big_body; EBodyClose],
        Returns (inl big_body)).
Proof.
  split; [vm_compute; reflexivity |].
  rewrite (DNSOverHTTPS_run (codec := rawCodec) (http_world big_response)
             "example.com" cloudflare TypeA
             (list_byte_of_string "example.com.") [] eq_refl eq_refl).
  cbn [http_world world round_trip big_response chunks fin List.concat
       Z.eqb StatusOK Pos.eqb app Unpack rawCodec].
  rewrite app_nil_r. reflexivity.
Qed.

Lemma DNSOverHTTPS_reads_whole_body_witness :
  65536 < len (List.concat [big_body])
  /\ DNSOverHTTPS (codec := rawCodec) (http_world big_response) "example.com"
                  cloudflare TypeA []
     = ([EPack;
         EDo (doh_request cloudflare (list_byte_of_string "example.com."));
         EReadAll; EUnpack (List.concat [big_body]); EBodyClose],
        Returns (inl (List.concat [big_body]))).
Proof.
  split; [vm_compute; reflexivity |].
  apply (DNSOverHTTPS_reads_whole_body (codec := rawCodec)
           (http_world big_response) "example.com" cloudflare TypeA
           (list_byte_of_string "example.com.") "200 OK"
           {| chunks := [big_body]; fin := Closed |} []);
    reflexivity.
Defined.

(** ** Dispatcher *)

Lemma len_args (a b c : string) (rest : list string) :
  (len (a :: b :: c :: rest) <? 2)%Z = false
  /\ (len (a :: b :: c :: rest) >=? 3)%Z = true.
Proof.
  unfold len. cbn [List.length]. split.
  - apply Z.ltb_ge. lia.
  - rewrite Z.geb_leb. apply Z.leb_le. lia.
Qed.

(** C2, as amended. [main] maps the method name "tcp" (also the default
    when no name is given) to [DNSOverTCP] with the resolver 8.8.8.8, and
    the method name "http" to [DNSOverHTTPS] with the Cloudflare DoH URL;
    for every other method name it fails with "Unknown method", which is
    fatal (exit status 1) and involves no network operation at all, so
    nothing is retried. *)
Theorem main_dispatch {codec : DNS} (env : Env) (prog domain : string)
  (rest : list string) (t : list event) :
  main env (prog :: domain :: "tcp" :: rest) t
  = (r <- DNSOverTCP env domain "8.8.8.8" TypeA ;; ret (report domain r)) t
  /\ main env [prog; domain] t
     = (r <- DNSOverTCP env domain "8.8.8.8" TypeA ;; ret (report domain r)) t
  /\ main env (prog :: domain :: "http" :: rest) t
     = (r <- DNSOverHTTPS env domain "https://cloudflare-dns.com/dns-query"
                          TypeA ;;
        ret (report domain r)) t
  /\ (forall method,
        method <> "tcp" -> method <> "http" ->
        main env (prog :: domain :: method :: rest) t
        = (t, Returns {| exit_code := 1;
                         stdout := "";
                         logged := "Unknown method: " ++ method
                                   ++ ". Use 'tcp' or 'http'." |})).
Proof.
  split; [| split; [| split]].
  - unfold main. destruct (len_args prog domain "tcp" rest) as [-> ->].
    reflexivity.
  - reflexivity.
  - unfold main. destruct (len_args prog domain "http" rest) as [-> ->].
    reflexivity.
  - intros method Htcp Hhttp. unfold main.
    destruct (len_args prog domain method rest) as [-> ->].
    cbn [nth]. apply String.eqb_neq in Htcp, Hhttp.
    rewrite Htcp, Hhttp. reflexivity.
Qed.

Lemma main_dispatch_witness :
  "doh" <> "tcp" /\ "doh" <> "http"
  /\ main (codec := rawCodec) (http_world ok_response)
          ["tmp-dns"; "example.com"; "doh"] []
     = ([], Returns {| exit_code := 1;
                       stdout := "";
                       logged := "Unknown method: " ++ "doh"
                                 ++ ". Use 'tcp' or 'http'." |}).
Proof.
  assert (H1 : "doh" <> "tcp") by discriminate.
  assert (H2 : "doh" <> "http") by discriminate.
  split; [exact H1 | split; [exact H2 |]].
  exact (proj2 (proj2 (proj2 (main_dispatch (codec := rawCodec)
                                (http_world ok_response) "tmp-dns"
                                "example.com" [] [])))
           "doh" H1 H2).
Defined.

(** C2, the claim as stated fails: the method name "doh" is unknown to
    [main], which exits without calling a transport; and "http", a name
    other than "tcp" and "doh", does not fail: it runs [DNSOverHTTPS]. *)
Lemma main_doh_is_unknown :
  main (codec := rawCodec) (http_world ok_response)
       ["tmp-dns"; "example.com"; "doh"] []
  = ([], Returns {| exit_code := 1;
                    stdout := "";
                    logged := "Unknown method: doh. Use 'tcp' or 'http'." |})
  /\ main (codec := rawCodec) (http_world ok_response)
          ["tmp-dns"; "example.com"; "http"] []
     = ([EPack;
         EDo (doh_request cloudflare (list_byte_of_string "example.com."));
         EReadAll; EUnpack [x01; x02; x03; x04]; EBodyClose],
        Returns {| exit_code := 0;
                   stdout := "DNS Response for example.com:" ++ nl
                             ++ string_of_bytes [x01; x02; x03; x04] ++ nl;
                   logged := "" |}).
Proof. split; vm_compute; reflexivity. Qed.

(** * Further properties of the transports *)

(** ** The stream transport, case by case *)

Lemma conn_Read_run (c : Conn) (buf : bytes) (t : list event) :
  conn_Read c buf t = ((t ++ [ERead (len buf)])%list, read_outcome c buf).
Proof.
  unfold read_outcome, conn_Read. rewrite !bind_unfold. cbn [emit].
  destruct buf as [| b buf]; [reflexivity |].
  destruct (take_available _ _) as [[d rest] |]; [reflexivity |].
  destruct (fin (rx c)); try reflexivity.
  destruct (deadline c); reflexivity.
Qed.

Lemma DNSOverTCP_tcp_run {codec : DNS} (env : Env) (domain dnsServer : string)
  (qtype : Z) (t : list event) :
  DNSOverTCP env domain dnsServer qtype t = tcp_run env domain dnsServer qtype t.
Proof.
  unfold tcp_run, DNSOverTCP, query. step.
  destruct (dial env "tcp" (dnsServer ++ ":53")) as [p | cause |];
    cbv beta iota; [| reflexivity | reflexivity].
  step. step.
  destruct (Pack _) as [msgBytes | err]; cbv beta iota zeta;
    [| cbn [ret]; rewrite conn_Close_run; cbn [fst]; flat; reflexivity].
  cbn [app]. fold (frame msgBytes). step. cbn [conn_peer deadline].
  destruct (on_write p (frame msgBytes)) as [| cause |]; cbv beta iota;
    [| cbn [ret]; rewrite conn_Close_run; cbn [fst]; flat; reflexivity
     | flat; reflexivity].
  fold (connect p). unfold tcp_after_write.
  rewrite bind_unfold, conn_Read_run.
  change (len (make 2)) with 2.
  destruct (read_outcome (connect p) (make 2))
    as [[[[c1 lengthBytes] n1] [err |]] |]; cbv beta iota zeta;
    [ cbn [ret]; rewrite conn_Close_run; cbn [fst]; flat; reflexivity
    | | flat; reflexivity ].
  rewrite bind_unfold, conn_Read_run.
  match goal with
  | |- context [read_outcome c1 ?b] =>
      destruct (read_outcome c1 b) as [[[[c2 respBytes] n2] [err |]] |]
  end; cbv beta iota zeta;
    [ cbn [ret]; rewrite conn_Close_run; cbn [fst]; flat; reflexivity
    | | flat; reflexivity ].
  step. unfold decoded.
  destruct (Unpack respBytes); cbn [ret]; rewrite conn_Close_run; cbn [fst];
    flat; reflexivity.
Qed.

(** *** One read *)

Lemma read_outcome_eq (c : Conn) (buf : bytes) :
  read_outcome c buf
  = match buf with
    | [] => Returns (c, buf, 0, None)
    | _ :: _ =>
        match take_available (chunks (rx c)) (List.length buf) with
        | Some (d, rest) =>
            Returns ({| conn_peer := conn_peer c;
                        rx := {| chunks := rest; fin := fin (rx c) |};
                        deadline := deadline c |},
                     (d ++ skipn (List.length d) buf)%list, len d, None)
        | None =>
            match fin (rx c) with
            | Closed => Returns (c, buf, 0, Some "EOF")
            | Failed cause => Returns (c, buf, 0, Some cause)
            | Silent =>
                match deadline c with
                | None => Blocks
                | Some _ => Returns (c, buf, 0, Some "i/o timeout")
                end
            end
        end
    end.
Proof.
  unfold read_outcome, conn_Read. rewrite bind_unfold. cbn [emit].
  destruct buf as [| b buf]; [reflexivity |].
  destruct (take_available _ _) as [[d rest] |]; [reflexivity |].
  destruct (fin (rx c)); try reflexivity.
  destruct (deadline c); reflexivity.
Qed.

Lemma take_available_bound (cs : list bytes) (k : nat) (d : bytes)
  (rest : list bytes) :
  take_available cs k = Some (d, rest) -> (List.length d <= k)%nat.
Proof.
  induction cs as [| [| b c] cs IH]; cbn [take_available]; intros H.
  - discriminate.
  - apply IH, H.
  - inversion H. apply firstn_le_length.
Qed.

Lemma take_available_empty (cs : list bytes) (k : nat) :
  Forall (fun d => d = []) cs -> take_available cs k = None.
Proof.
  induction 1 as [| d cs Hd _ IH]; [reflexivity |].
  subst d. exact IH.
Qed.

(** A read returns the buffer at its length, and a count within it. *)
Lemma read_outcome_buffer (c c' : Conn) (buf buf' : bytes) (n : Z)
  (e : option error) :
  read_outcome c buf = Returns (c', buf', n, e) ->
  List.length buf' = List.length buf /\ 0 <= n <= len buf.
Proof.
  rewrite read_outcome_eq. pose proof (len_nonneg buf) as Hb.
  destruct buf as [| b buf]; [intros H; inversion H; subst; split; [reflexivity | lia] |].
  destruct (take_available _ _) as [[d rest] |] eqn:E.
  - intros H. inversion H. subst. apply take_available_bound in E.
    rewrite length_app, length_skipn. unfold len. split; lia.
  - destruct (fin (rx c)); [| | destruct (deadline c)];
      intros H; inversion H; subst; (split; [reflexivity | lia]).
Qed.

Lemma len_make (n : Z) : 0 <= n -> len (make n) = n.
Proof.
  intros Hn. unfold len, make. rewrite repeat_length. apply Z2Nat.id, Hn.
Qed.

Lemma be16 (hi lo : byte) :
  Z.lor (Z.shiftl (byte_val hi) 8) (byte_val lo) = byte_val hi * 256 + byte_val lo.
Proof.
  pose proof (byte_val_bounded lo).
  rewrite lor_shiftl_add; [reflexivity | lia |].
  change (2 ^ 8) with 256. lia.
Qed.

Lemma respLength_bound (lengthBytes : bytes) :
  0 <= Z.lor (Z.shiftl (byte_val (nth 0 lengthBytes x00)) 8)
             (byte_val (nth 1 lengthBytes x00)) <= 65535.
Proof.
  rewrite be16.
  pose proof (byte_val_bounded (nth 0 lengthBytes x00)).
  pose proof (byte_val_bounded (nth 1 lengthBytes x00)). lia.
Qed.

(** ** StreamTransport: what every call does *)

Section TCPRuns.

Context {codec : DNS}.
Variables (env : Env) (domain dnsServer : string) (qtype : Z).

(** X1. [DNSOverTCP] never hands the decoder more than 65535 bytes: the
    response buffer has the length the two prefix bytes give, whatever the
    peer sends afterwards. *)
Theorem DNSOverTCP_decoder_buffer_bounded :
  Forall decodes_at_most_64K (trace_of (DNSOverTCP env domain dnsServer qtype)).
Proof.
  unfold trace_of. rewrite DNSOverTCP_tcp_run. unfold tcp_run.
  destruct (dial env "tcp" (dnsServer ++ ":53")) as [p | cause |];
    [| repeat constructor | repeat constructor].
  destruct (Pack (query domain qtype)) as [msgBytes | err];
    [| repeat constructor].
  destruct (on_write p (frame msgBytes)) as [| cause |];
    [| repeat constructor | repeat constructor].
  unfold tcp_after_write.
  destruct (read_outcome (connect p) (make 2))
    as [[[[c1 lengthBytes] n1] [err |]] |]; [repeat constructor | | repeat constructor].
  cbv zeta.
  pose proof (respLength_bound lengthBytes) as Hn.
  set (respLength := Z.lor _ _) in *.
  destruct (read_outcome c1 (make respLength))
    as [[[[c2 respBytes] n2] [err |]] |] eqn:E;
    [repeat constructor | | repeat constructor].
  apply read_outcome_buffer in E. destruct E as [E _].
  cbn [fst app]. repeat constructor. cbn [decodes_at_most_64K].
  unfold len. rewrite E. fold (len (make respLength)).
  rewrite len_make; lia.
Qed.

(** X2. A call makes one attempt: it dials exactly once, encodes and writes
    at most once, reads at most twice, decodes at most once and closes at
    most once; nothing is retried. *)
Theorem DNSOverTCP_single_attempt :
  let events := trace_of (DNSOverTCP env domain dnsServer qtype) in
  (count is_dial events = 1
   /\ count is_pack events <= 1
   /\ count is_write events <= 1
   /\ count is_read events <= 2
   /\ count is_unpack events <= 1
   /\ count is_close events <= 1)%nat.
Proof.
  unfold trace_of. rewrite DNSOverTCP_tcp_run. unfold tcp_run.
  destruct (dial env "tcp" (dnsServer ++ ":53")) as [p | cause |];
    [| cbn; lia | cbn; lia].
  destruct (Pack (query domain qtype)) as [msgBytes | err]; [| cbn; lia].
  destruct (on_write p (frame msgBytes)) as [| cause |];
    [| cbn; lia | cbn; lia].
  unfold tcp_after_write.
  destruct (read_outcome (connect p) (make 2))
    as [[[[c1 lengthBytes] n1] [err |]] |]; [cbn; lia | | cbn; lia].
  cbv zeta.
  match goal with
  | |- context [read_outcome c1 ?b] =>
      destruct (read_outcome c1 b) as [[[[c2 respBytes] n2] [err |]] |]
  end; cbn; lia.
Qed.

(** X3. The connection is closed exactly when the dial succeeded and the
    call returns, whatever it returns, and closing is then the last thing
    the call does; a call whose dial fails, or that never returns, closes
    nothing. *)
Theorem DNSOverTCP_closes_connection (t : list event) :
  (forall p r,
     dial env "tcp" (dnsServer ++ ":53") = DialOk p ->
     snd (DNSOverTCP env domain dnsServer qtype t) = Returns r ->
     exists mid,
       fst (DNSOverTCP env domain dnsServer qtype t) = (t ++ mid ++ [EClose])%list
       /\ Forall (fun e => is_close e = false) mid)
  /\ ((forall p, dial env "tcp" (dnsServer ++ ":53") <> DialOk p)
      \/ snd (DNSOverTCP env domain dnsServer qtype t) = Blocks ->
      exists mid,
        fst (DNSOverTCP env domain dnsServer qtype t) = (t ++ mid)%list
        /\ Forall (fun e => is_close e = false) mid).
Proof.
  rewrite DNSOverTCP_tcp_run. unfold tcp_run, tcp_after_write.
  assert (Hreturned : forall (l : list event) (o : outcome (Msg + error)),
            Forall (fun e => is_close e = false) (removelast l) ->
            last l EPack = EClose ->
            l <> [] ->
            exists mid, fst ((t ++ l)%list, o) = (t ++ mid ++ [EClose])%list
                        /\ Forall (fun e => is_close e = false) mid).
  { intros l o Hall Hlast Hne. exists (removelast l). split; [| exact Hall].
    cbn [fst]. rewrite <- Hlast. rewrite <- app_removelast_last by exact Hne.
    reflexivity. }
  assert (Hopen : forall (l : list event) (o : outcome (Msg + error)),
            Forall (fun e => is_close e = false) l ->
            exists mid, fst ((t ++ l)%list, o) = (t ++ mid)%list
                        /\ Forall (fun e => is_close e = false) mid).
  { intros l o Hall. exists l. split; [reflexivity | exact Hall]. }
  destruct (dial env "tcp" (dnsServer ++ ":53")) as [p | cause |].
  2: { split; [intros p r H; discriminate |].
       intros _. apply Hopen. repeat constructor. }
  2: { split; [intros p r H; discriminate |].
       intros _. apply Hopen. repeat constructor. }
  assert (Hdialled : forall P : Prop,
            (forall p0 : Peer, DialOk p <> DialOk p0) \/ P -> P).
  { intros P [H | H]; [exfalso; exact (H p eq_refl) | exact H]. }
  destruct (Pack (query domain qtype)) as [msgBytes | err].
  2: { split.
       - intros _ r _ _. apply Hreturned; [repeat constructor | reflexivity | discriminate].
       - intros H. apply Hdialled in H. discriminate. }
  destruct (on_write p (frame msgBytes)) as [| cause |].
  2: { split.
       - intros _ r _ _. apply Hreturned; [repeat constructor | reflexivity | discriminate].
       - intros H. apply Hdialled in H. discriminate. }
  2: { split; [intros _ r _ H; discriminate |].
       intros _. apply Hopen. repeat constructor. }
  destruct (read_outcome (connect p) (make 2))
    as [[[[c1 lengthBytes] n1] [err |]] |].
  - split.
    + intros _ r _ _. rewrite <- app_assoc.
      apply Hreturned; [repeat constructor | reflexivity | discriminate].
    + intros H. apply Hdialled in H. discriminate.
  - cbv zeta.
    match goal with
    | |- context [read_outcome c1 ?b] =>
        destruct (read_outcome c1 b) as [[[[c2 respBytes] n2] [err |]] |]
    end.
    + split.
      * intros _ r _ _. rewrite <- app_assoc.
        apply Hreturned; [repeat constructor | reflexivity | discriminate].
      * intros H. apply Hdialled in H. discriminate.
    + split.
      * intros _ r _ _. rewrite <- app_assoc.
        apply Hreturned; [repeat constructor | reflexivity | discriminate].
      * intros H. apply Hdialled in H. discriminate.
    + split; [intros _ r _ H; discriminate |].
      intros _. rewrite <- app_assoc. apply Hopen. repeat constructor.
  - split; [intros _ r _ H; discriminate |].
    intros _. rewrite <- app_assoc. apply Hopen. repeat constructor.
Qed.

End TCPRuns.

(** ** StreamTransport: the response as the peer delivers it *)

(** The first read, when the first segment holds the two prefix bytes. *)
Lemma read_prefix (c : Conn) (hi lo : byte) (tail : bytes) (more : list bytes) :
  chunks (rx c) = (hi :: lo :: tail) :: more ->
  read_outcome c (make 2)
  = Returns ({| conn_peer := conn_peer c;
                rx := {| chunks := match tail with
                                   | [] => more
                                   | _ :: _ => tail :: more
                                   end;
                         fin := fin (rx c) |};
                deadline := deadline c |},
             [hi; lo], 2, None).
Proof.
  intros H. rewrite read_outcome_eq. change (make 2) with [x00; x00].
  rewrite H. destruct tail; reflexivity.
Qed.

(** A read of exactly the segment that is available. *)
Lemma read_segment (c : Conn) (body : bytes) (more : list bytes) :
  body <> [] ->
  chunks (rx c) = body :: more ->
  read_outcome c (make (len body))
  = Returns ({| conn_peer := conn_peer c;
                rx := {| chunks := more; fin := fin (rx c) |};
                deadline := deadline c |},
             body, len body, None).
Proof.
  intros Hne H.
  assert (Hmake : make (len body) = repeat x00 (List.length body))
    by (unfold make, len; rewrite Nat2Z.id; reflexivity).
  rewrite Hmake, read_outcome_eq.
  destruct body as [| b body]; [contradiction |].
  cbn [List.length repeat]. rewrite H, repeat_length.
  cbn [take_available List.length Nat.leb]. rewrite Nat.leb_refl.
  change (S (List.length body)) with (List.length (b :: body)).
  rewrite firstn_all.
  rewrite skipn_all2 by (cbn [List.length]; rewrite repeat_length; lia).
  rewrite app_nil_r. reflexivity.
Qed.

Section Delivery.

Context {codec : DNS}.

(** Prefix and body in one segment, or in two: both reads find what they
    ask for. *)
Lemma tcp_after_write_delivered (c0 : Conn) (hi lo : byte) (body : bytes)
  (more : list bytes) (t : list event) :
  chunks (rx c0) = (hi :: lo :: body) :: more
  \/ chunks (rx c0) = [hi; lo] :: body :: more ->
  len body = byte_val hi * 256 + byte_val lo ->
  tcp_after_write c0 t
  = ((t ++ [ERead 2; ERead (len body); EUnpack body; EClose])%list,
     Returns (decoded (Unpack body))).
Proof.
  intros Hshape Hlen. unfold tcp_after_write.
  assert (Hfirst : exists c1,
            read_outcome c0 (make 2) = Returns (c1, [hi; lo], 2, None)
            /\ (body <> [] -> chunks (rx c1) = body :: more)).
  { destruct Hshape as [H | H]; rewrite (read_prefix c0 hi lo _ _ H);
      eexists; (split; [reflexivity |]); cbn [rx chunks];
      destruct body; intros Hne; congruence. }
  destruct Hfirst as [c1 [-> Hc1]]. cbv beta iota zeta. cbn [nth].
  rewrite be16, <- Hlen.
  destruct body as [| b body].
  - change (make (len [])) with (@nil byte). rewrite read_outcome_eq.
    reflexivity.
  - rewrite (read_segment c1 (b :: body) more) by (try discriminate; apply Hc1; discriminate).
    rewrite len_make by apply len_nonneg. reflexivity.
Qed.

Variables (env : Env) (domain dnsServer : string) (qtype : Z).

(** X4. When the peer takes the query and delivers the prefix and a body of
    the length the prefix gives, in one segment or in two, the decoder
    receives exactly the body, and the call returns the decoded message, or
    the error "failed to unpack DNS response" when the body does not
    decode; the connection is closed. *)
Theorem DNSOverTCP_decodes_delivered_body (p : Peer) (msgBytes : bytes)
  (hi lo : byte) (body : bytes) (more : list bytes) (t : list event) :
  dial env "tcp" (dnsServer ++ ":53") = DialOk p ->
  Pack (query domain qtype) = inl msgBytes ->
  on_write p (frame msgBytes) = WriteOk ->
  chunks (inbound p) = (hi :: lo :: body) :: more
  \/ chunks (inbound p) = [hi; lo] :: body :: more ->
  len body = byte_val hi * 256 + byte_val lo ->
  DNSOverTCP env domain dnsServer qtype t
  = ((t ++ [EDial "tcp" (dnsServer ++ ":53"); EPack; EWrite (frame msgBytes);
            ERead 2; ERead (len body); EUnpack body; EClose])%list,
     Returns match Unpack body with
             | inl resp => inl resp
             | inr err => inr ("failed to unpack DNS response: " ++ err)
             end).
Proof.
  intros Hdial Hpack Hwrite Hshape Hlen.
  rewrite DNSOverTCP_tcp_run. unfold tcp_run. rewrite Hdial, Hpack, Hwrite.
  rewrite (tcp_after_write_delivered (connect p) hi lo body more _ Hshape Hlen).
  flat. reflexivity.
Qed.

(** X5. A response whose prefix is zero never makes the call wait for a
    body: the second read, into an empty buffer, returns at once, and the
    decoder is called on the empty buffer, whatever follows the prefix and
    even when the peer then stays silent. *)
Theorem DNSOverTCP_zero_length_response (p : Peer) (msgBytes tail : bytes)
  (more : list bytes) (t : list event) :
  dial env "tcp" (dnsServer ++ ":53") = DialOk p ->
  Pack (query domain qtype) = inl msgBytes ->
  on_write p (frame msgBytes) = WriteOk ->
  chunks (inbound p) = (x00 :: x00 :: tail) :: more ->
  DNSOverTCP env domain dnsServer qtype t
  = ((t ++ [EDial "tcp" (dnsServer ++ ":53"); EPack; EWrite (frame msgBytes);
            ERead 2; ERead 0; EUnpack []; EClose])%list,
     Returns match Unpack [] with
             | inl resp => inl resp
             | inr err => inr ("failed to unpack DNS response: " ++ err)
             end).
Proof.
  intros Hdial Hpack Hwrite Hshape.
  rewrite DNSOverTCP_tcp_run. unfold tcp_run. rewrite Hdial, Hpack, Hwrite.
  unfold tcp_after_write.
  rewrite (read_prefix (connect p) x00 x00 tail more Hshape).
  cbv beta iota zeta. cbn [nth].
  change (Z.lor (Z.shiftl (byte_val x00) 8) (byte_val x00)) with 0.
  change (make 0) with (@nil byte). rewrite read_outcome_eq.
  flat. reflexivity.
Qed.

(** X6. When the stream ends, by close or by failure, before the peer has
    sent anything, the call returns the error "failed to read response
    length" with the cause ("EOF" for a close), reads no body, decodes
    nothing and closes the connection. *)
Theorem DNSOverTCP_length_read_error (p : Peer) (msgBytes : bytes)
  (cause : error) (t : list event) :
  dial env "tcp" (dnsServer ++ ":53") = DialOk p ->
  Pack (query domain qtype) = inl msgBytes ->
  on_write p (frame msgBytes) = WriteOk ->
  Forall (fun d => d = []) (chunks (inbound p)) ->
  end_cause (fin (inbound p)) = Some cause ->
  DNSOverTCP env domain dnsServer qtype t
  = ((t ++ [EDial "tcp" (dnsServer ++ ":53"); EPack; EWrite (frame msgBytes);
            ERead 2; EClose])%list,
     Returns (inr ("failed to read response length: " ++ cause))).
Proof.
  intros Hdial Hpack Hwrite Hempty Hend.
  rewrite DNSOverTCP_tcp_run. unfold tcp_run. rewrite Hdial, Hpack, Hwrite.
  unfold tcp_after_write. rewrite read_outcome_eq.
  change (make 2) with [x00; x00]. cbn [connect rx deadline].
  rewrite (take_available_empty _ _ Hempty).
  destruct (fin (inbound p)); cbn [end_cause] in Hend; inversion Hend; subst;
    flat; reflexivity.
Qed.

(** X7. When the peer sends a non-zero prefix and the stream then ends, by
    close or by failure, without a byte of the body, the call returns the
    error "failed to read DNS response" with the cause, decodes nothing and
    closes the connection. *)
Theorem DNSOverTCP_body_read_error (p : Peer) (msgBytes : bytes) (hi lo : byte)
  (more : list bytes) (cause : error) (t : list event) :
  dial env "tcp" (dnsServer ++ ":53") = DialOk p ->
  Pack (query domain qtype) = inl msgBytes ->
  on_write p (frame msgBytes) = WriteOk ->
  chunks (inbound p) = [hi; lo] :: more ->
  Forall (fun d => d = []) more ->
  byte_val hi * 256 + byte_val lo <> 0 ->
  end_cause (fin (inbound p)) = Some cause ->
  DNSOverTCP env domain dnsServer qtype t
  = ((t ++ [EDial "tcp" (dnsServer ++ ":53"); EPack; EWrite (frame msgBytes);
            ERead 2; ERead (byte_val hi * 256 + byte_val lo); EClose])%list,
     Returns (inr ("failed to read DNS response: " ++ cause))).
Proof.
  intros Hdial Hpack Hwrite Hshape Hempty Hnz Hend.
  pose proof (byte_val_bounded hi) as Hhi. pose proof (byte_val_bounded lo) as Hlo.
  rewrite DNSOverTCP_tcp_run. unfold tcp_run. rewrite Hdial, Hpack, Hwrite.
  unfold tcp_after_write.
  rewrite (read_prefix (connect p) hi lo [] more Hshape).
  cbv beta iota zeta. cbn [nth]. rewrite be16.
  set (n := byte_val hi * 256 + byte_val lo) in *.
  rewrite (len_make n) by lia.
  rewrite read_outcome_eq. cbn [rx chunks fin deadline connect].
  rewrite (take_available_empty _ _ Hempty).
  assert (Hmake : exists b rest, make n = b :: rest).
  { unfold make. destruct (Z.to_nat n) eqn:E; [lia |].
    cbn [repeat]. eauto. }
  destruct Hmake as [b [rest ->]].
  destruct (fin (inbound p)); cbn [end_cause] in Hend; inversion Hend; subst;
    flat; reflexivity.
Qed.

End Delivery.

(** ** WebTransport: errors and the response body *)

Section DoHRuns.

Context {codec : DNS}.
Variables (env : Env) (domain dohURL : string) (qtype : Z).

(** The run of [DNSOverHTTPS] when no request can be built. *)
Lemma DNSOverHTTPS_no_request (t : list event) :
  DNSOverHTTPS env domain dohURL qtype t
  = match Pack (query domain qtype) with
    | inr err =>
        ((t ++ [EPack])%list, Returns (inr ("failed to pack DNS message: " ++ err)))
    | inl msgBytes =>
        match url_error env (URL (doh_request dohURL msgBytes)) with
        | Some err =>
            ((t ++ [EPack])%list,
             Returns (inr ("failed to create HTTP request: " ++ err)))
        | None => DNSOverHTTPS env domain dohURL qtype t
        end
    end.
Proof.
  destruct (Pack (query domain qtype)) as [msgBytes | err] eqn:Hpack.
  - destruct (url_error env (URL (doh_request dohURL msgBytes))) as [err |] eqn:Hurl;
      [| reflexivity].
    unfold query in Hpack. cbn [doh_request URL] in Hurl.
    unfold DNSOverHTTPS. step. rewrite Hpack. cbv beta iota zeta.
    unfold http_NewRequest. rewrite Hurl. reflexivity.
  - unfold query in Hpack. unfold DNSOverHTTPS. step. rewrite Hpack.
    reflexivity.
Qed.

(** X8. [DNSOverHTTPS] encodes the query and builds the request before it
    touches the network: when the codec rejects the query, or the URL does
    not parse, the call returns the error "failed to pack DNS message" or
    "failed to create HTTP request" and no request has been sent. *)
Theorem DNSOverHTTPS_fails_before_request (t : list event) :
  (forall err,
     Pack (query domain qtype) = inr err ->
     DNSOverHTTPS env domain dohURL qtype t
     = ((t ++ [EPack])%list,
        Returns (inr ("failed to pack DNS message: " ++ err))))
  /\ (forall msgBytes err,
        Pack (query domain qtype) = inl msgBytes ->
        url_error env (dohURL ++ "?dns=" ++ EncodeToString RawURLEncoding msgBytes)
        = Some err ->
        DNSOverHTTPS env domain dohURL qtype t
        = ((t ++ [EPack])%list,
           Returns (inr ("failed to create HTTP request: " ++ err)))).
Proof.
  split.
  - intros err Hpack. rewrite DNSOverHTTPS_no_request, Hpack. reflexivity.
  - intros msgBytes err Hpack Hurl. rewrite DNSOverHTTPS_no_request, Hpack.
    cbn [doh_request URL]. rewrite Hurl. reflexivity.
Qed.

(** X9. Once the server has responded, with any status, the body is read
    once and closed as the last thing every returning call does; when the
    round trip itself fails the call returns the error "HTTP request
    failed" and there is no body to read or close. *)
Theorem DNSOverHTTPS_closes_body (msgBytes : bytes) (t : list event) :
  Pack (query domain qtype) = inl msgBytes ->
  url_error env (URL (doh_request dohURL msgBytes)) = None ->
  (forall status code body r,
     round_trip env (doh_request dohURL msgBytes) = Responds status code body ->
     snd (DNSOverHTTPS env domain dohURL qtype t) = Returns r ->
     exists mid,
       fst (DNSOverHTTPS env domain dohURL qtype t)
       = (t ++ mid ++ [EBodyClose])%list
       /\ Forall (fun e => is_body_close e = false) mid
       /\ count is_read_all mid = 1%nat)
  /\ (forall cause,
        round_trip env (doh_request dohURL msgBytes) = TransportErr cause ->
        DNSOverHTTPS env domain dohURL qtype t
        = ((t ++ [EPack; EDo (doh_request dohURL msgBytes)])%list,
           Returns (inr ("HTTP request failed: " ++ cause)))).
Proof.
  intros Hpack Hurl. rewrite (DNSOverHTTPS_run env domain dohURL qtype msgBytes t Hpack Hurl).
  cbv zeta. split.
  - intros status code body r Hresp. rewrite Hresp.
    destruct (fin body); [destruct (code =? StatusOK)%Z | |]; cbn [fst snd];
      intros Hret; try discriminate Hret.
    + exists [EPack; EDo (doh_request dohURL msgBytes); EReadAll;
              EUnpack (List.concat (chunks body))].
      split; [reflexivity | split; [repeat constructor | reflexivity]].
    + exists [EPack; EDo (doh_request dohURL msgBytes); EReadAll].
      split; [reflexivity | split; [repeat constructor | reflexivity]].
    + exists [EPack; EDo (doh_request dohURL msgBytes); EReadAll].
      split; [reflexivity | split; [repeat constructor | reflexivity]].
  - intros cause Hresp. rewrite Hresp. reflexivity.
Qed.

(** X10. A body with status 200 that breaks off with a read error is never
    decoded: the call returns the error "failed to read DNS response" with
    the cause, whatever part of the body had arrived. *)
Theorem DNSOverHTTPS_body_read_error (msgBytes : bytes) (status : string)
  (body : stream) (cause : error) (t : list event) :
  Pack (query domain qtype) = inl msgBytes ->
  url_error env (URL (doh_request dohURL msgBytes)) = None ->
  round_trip env (doh_request dohURL msgBytes) = Responds status StatusOK body ->
  fin body = Failed cause ->
  DNSOverHTTPS env domain dohURL qtype t
  = ((t ++ [EPack; EDo (doh_request dohURL msgBytes); EReadAll; EBodyClose])%list,
     Returns (inr ("failed to read DNS response: " ++ cause)))
  /\ Forall (fun e => is_unpack e = false)
            (trace_of (DNSOverHTTPS env domain dohURL qtype)).
Proof.
  intros Hpack Hurl Hresp Hfin. split.
  - rewrite (DNSOverHTTPS_run env domain dohURL qtype msgBytes t Hpack Hurl).
    cbv zeta. rewrite Hresp, Hfin. reflexivity.
  - unfold trace_of.
    rewrite (DNSOverHTTPS_run env domain dohURL qtype msgBytes [] Hpack Hurl).
    cbv zeta. rewrite Hresp, Hfin. cbn [fst app]. repeat constructor.
Qed.

(** X11. Both transports return the same result for the same response: a
    peer that delivers a frame with the body [body] and an HTTP server that
    answers 200 with the body [body] make [DNSOverTCP] and [DNSOverHTTPS]
    each return what the decoder returns for [body]: the decoded message,
    or the error "failed to unpack DNS response" with the decoder's
    error. *)
Theorem transports_agree (dnsServer : string) (p : Peer) (msgBytes : bytes)
  (hi lo : byte) (body : bytes) (more segments : list bytes) (status : string)
  (t1 t2 : list event) :
  dial env "tcp" (dnsServer ++ ":53") = DialOk p ->
  Pack (query domain qtype) = inl msgBytes ->
  on_write p (frame msgBytes) = WriteOk ->
  chunks (inbound p) = (hi :: lo :: body) :: more
  \/ chunks (inbound p) = [hi; lo] :: body :: more ->
  len body = byte_val hi * 256 + byte_val lo ->
  url_error env (URL (doh_request dohURL msgBytes)) = None ->
  round_trip env (doh_request dohURL msgBytes)
  = Responds status StatusOK {| chunks := segments; fin := Closed |} ->
  List.concat segments = body ->
  let result := match Unpack body with
                | inl resp => inl resp
                | inr err => inr ("failed to unpack DNS response: " ++ err)
                end in
  snd (DNSOverTCP env domain dnsServer qtype t1) = Returns result
  /\ snd (DNSOverHTTPS env domain dohURL qtype t2) = Returns result
  /\ In (EUnpack body) (fst (DNSOverTCP env domain dnsServer qtype t1))
  /\ In (EUnpack body) (fst (DNSOverHTTPS env domain dohURL qtype t2)).
Proof.
  intros Hdial Hpack Hwrite Hshape Hlen Hurl Hresp Hbody result.
  rewrite DNSOverTCP_tcp_run. unfold tcp_run. rewrite Hdial, Hpack, Hwrite.
  rewrite (tcp_after_write_delivered (connect p) hi lo body more _ Hshape Hlen).
  rewrite (DNSOverHTTPS_run env domain dohURL qtype msgBytes t2 Hpack Hurl).
  cbv zeta. rewrite Hresp. cbn [chunks fin]. rewrite Hbody.
  change (StatusOK =? StatusOK)%Z with true. cbn [fst snd].
  repeat split; try reflexivity;
    apply in_or_app; right; cbn [In]; tauto.
Qed.

End DoHRuns.

(** ** WebTransport: the [dns] parameter *)

Lemma Encode_length (src : bytes) :
  len (Encode RawURLEncoding src) = (len src * 8 + 5) / 6.
Proof.
  induction src as [| a | a b | a b c l IH] using Base64.list_ind3.
  - reflexivity.
  - reflexivity.
  - reflexivity.
  - change (Encode RawURLEncoding (a :: b :: c :: l))
      with ((fun e => e 18 :: e 12 :: e 6 :: e 0 :: Encode RawURLEncoding l)
              (fun s => encode_at RawURLEncoding
                          (Z.land (Z.shiftr
                             (Z.lor (Z.lor (Z.shiftl (byte_val a) 16)
                                           (Z.shiftl (byte_val b) 8))
                                    (byte_val c)) s) 63))).
    cbv beta.
    assert (E1 : forall (x y z w : byte) (r : bytes),
               len (x :: y :: z :: w :: r) = len r + 4)
      by (intros; unfold len; cbn [List.length]; lia).
    assert (E2 : len (a :: b :: c :: l) = len l + 3)
      by (unfold len; cbn [List.length]; lia).
    rewrite E1, E2, IH.
    replace ((len l + 3) * 8 + 5) with (len l * 8 + 5 + 4 * 6) by lia.
    rewrite Z.div_add by lia. reflexivity.
Qed.

Lemma url_char_in_alphabet (c : byte) :
  url_char c -> In c (list_byte_of_string encodeURL).
Proof.
  intros [i [Hi ->]]. unfold encode_at.
  change (encode RawURLEncoding) with (list_byte_of_string encodeURL).
  apply nth_In.
  change (List.length (list_byte_of_string encodeURL)) with 64%nat. lia.
Qed.

(** X12. The value of the [dns] parameter is made of characters of the
    URL-safe alphabet only, so it needs no escaping in the query string, and
    it is [(8n + 5) / 6] characters long for a packed query of [n] bytes. *)
Theorem EncodeToString_url_safe (src : bytes) :
  let encoded := list_byte_of_string (EncodeToString RawURLEncoding src) in
  (forall c, In c encoded -> In c (list_byte_of_string encodeURL))
  /\ len encoded = (len src * 8 + 5) / 6.
Proof.
  unfold EncodeToString, string_of_bytes. cbv zeta.
  rewrite list_byte_of_string_of_list_byte. split.
  - intros c Hin. apply url_char_in_alphabet.
    pose proof (Base64.Encode_chars src) as H. rewrite Forall_forall in H.
    apply H, Hin.
  - apply Encode_length.
Qed.

Lemma append_cancel_l (s a b : string) : s ++ a = s ++ b -> a = b.
Proof.
  induction s as [| c s IH]; cbn [append]; intros H.
  - exact H.
  - apply IH. inversion H. reflexivity.
Qed.

Lemma doh_request_inj (dohURL : string) (b1 b2 : bytes) :
  doh_request dohURL b1 = doh_request dohURL b2 -> b1 = b2.
Proof.
  intros H. apply (f_equal URL) in H. cbn [doh_request URL] in H.
  apply append_cancel_l in H. apply append_cancel_l in H.
  assert (E : Some b1 = Some b2).
  { rewrite <- (Base64.DecodeString_EncodeToString b1),
            <- (Base64.DecodeString_EncodeToString b2), H.
    reflexivity. }
  inversion E. reflexivity.
Qed.

(** ** Dispatcher: arguments and exit status *)

Section MainRuns.

Context {codec : DNS}.
Variable env : Env.

(** A message a transport returns is one the decoder produced. *)
Lemma DNSOverTCP_returns_decoded (domain dnsServer : string) (qtype : Z)
  (t tr : list event) (m : Msg) :
  DNSOverTCP env domain dnsServer qtype t = (tr, Returns (inl m)) ->
  exists events b,
    tr = (t ++ events)%list /\ In (EUnpack b) events /\ Unpack b = inl m.
Proof.
  rewrite DNSOverTCP_tcp_run. unfold tcp_run.
  destruct (dial env "tcp" (dnsServer ++ ":53")) as [p | cause |];
    [| discriminate | discriminate].
  destruct (Pack (query domain qtype)) as [msgBytes | err]; [| discriminate].
  destruct (on_write p (frame msgBytes)) as [| cause |];
    [| discriminate | discriminate].
  unfold tcp_after_write.
  destruct (read_outcome (connect p) (make 2))
    as [[[[c1 lengthBytes] n1] [err |]] |]; [discriminate | | discriminate].
  cbv zeta.
  match goal with
  | |- context [read_outcome c1 ?b] =>
      destruct (read_outcome c1 b) as [[[[c2 respBytes] n2] [err |]] |]
  end; [discriminate | | discriminate].
  unfold decoded. destruct (Unpack respBytes) as [resp | err] eqn:E;
    [| discriminate].
  intros H. inversion H. subst. rewrite <- app_assoc.
  eexists. exists respBytes. split; [reflexivity |].
  split; [| exact E]. cbn. tauto.
Qed.

Lemma DNSOverHTTPS_returns_decoded (domain dohURL : string) (qtype : Z)
  (t tr : list event) (m : Msg) :
  DNSOverHTTPS env domain dohURL qtype t = (tr, Returns (inl m)) ->
  exists events b,
    tr = (t ++ events)%list /\ In (EUnpack b) events /\ Unpack b = inl m.
Proof.
  rewrite DNSOverHTTPS_no_request.
  destruct (Pack (query domain qtype)) as [msgBytes | err] eqn:Hpack;
    [| discriminate].
  destruct (url_error env (URL (doh_request dohURL msgBytes))) as [err |] eqn:Hurl;
    [discriminate |].
  rewrite (DNSOverHTTPS_run env domain dohURL qtype msgBytes t Hpack Hurl).
  cbv zeta.
  destruct (round_trip env (doh_request dohURL msgBytes))
    as [status code body | cause |]; [| discriminate | discriminate].
  destruct (fin body); [destruct (code =? StatusOK)%Z | |]; try discriminate.
  destruct (Unpack (List.concat (chunks body))) as [resp | err] eqn:E;
    [| discriminate].
  intros H. inversion H. subst.
    eexists. exists (List.concat (chunks body)). split; [reflexivity |].
    split; [| exact E]. cbn. tauto.
Qed.

(** X14. [main] exits with status 0 only when a transport has decoded a
    response: the decoder was called on some buffer and returned the
    message whose answers are printed, one per line, under the heading for
    the domain; nothing is logged. *)
Theorem main_success_decoded (Args : list string) (t tr : list event) (ex : Exit) :
  main env Args t = (tr, Returns ex) ->
  exit_code ex = 0 ->
  exists events b response,
    tr = (t ++ events)%list
    /\ In (EUnpack b) events
    /\ Unpack b = inl response
    /\ ex = {| exit_code := 0;
               stdout := "DNS Response for " ++ nth 1 Args "" ++ ":" ++ nl
                         ++ String.concat "" (map (fun ans => ans ++ nl)
                                                  (Answer response));
               logged := "" |}.
Proof.
  unfold main.
  destruct (len Args <? 2)%Z;
    [intros H Hcode; inversion H; subst; discriminate Hcode |].
  cbv zeta.
  assert (Hreport : forall (m : IO (Msg + error)),
            (forall t tr r, m t = (tr, Returns (inl r)) ->
               exists events b, tr = (t ++ events)%list
                                /\ In (EUnpack b) events /\ Unpack b = inl r) ->
            (r <- m ;; ret (report (nth 1 Args "") r)) t = (tr, Returns ex) ->
            exit_code ex = 0 ->
            exists events b response,
              tr = (t ++ events)%list /\ In (EUnpack b) events
              /\ Unpack b = inl response
              /\ ex = report (nth 1 Args "") (inl response)).
  { intros m Hm. rewrite bind_unfold.
    destruct (m t) as [tr' [[resp | err] |]] eqn:E; cbn [ret];
      intros H Hcode; inversion H; subst; try discriminate Hcode.
    destruct (Hm t tr resp E) as [events [b [H1 [H2 H3]]]].
    exists events, b, resp. repeat split; assumption. }
  destruct (_ =? "tcp")%string.
  - apply Hreport. intros t0 tr0 r. apply DNSOverTCP_returns_decoded.
  - destruct (_ =? "http")%string.
    + apply Hreport. intros t0 tr0 r. apply DNSOverHTTPS_returns_decoded.
    + intros H Hcode. inversion H. subst. discriminate Hcode.
Qed.

(** X15. [main] needs a domain: with fewer than two arguments it prints the
    usage line and exits with status 1 without any network operation; and
    it looks at no argument after the method name. *)
Theorem main_arguments (t : list event) :
  (forall Args,
     len Args < 2 ->
     main env Args t
     = (t, Returns {| exit_code := 1;
                      stdout := "Usage: " ++ nth 0 Args ""
                                ++ " <domain> [tcp|http]" ++ nl;
                      logged := "" |}))
  /\ (forall prog domain method rest,
        main env (prog :: domain :: method :: rest) t
        = main env [prog; domain; method] t).
Proof.
  split.
  - intros Args H. unfold main. apply Z.ltb_lt in H. rewrite H. reflexivity.
  - intros prog domain method rest. unfold main.
    destruct (len_args prog domain method rest) as [-> ->].
    reflexivity.
Qed.

End MainRuns.

(** ** WebTransport: the request identifies the query *)

Section Requests.

Context {codec : DNS}.
Variables (env : Env) (dohURL : string).

(** The only request a call sends is the one for its packed query. *)
Lemma DNSOverHTTPS_sent (domain : string) (qtype : Z) (msgBytes : bytes)
  (req : Request) :
  Pack (query domain qtype) = inl msgBytes ->
  In (EDo req) (trace_of (DNSOverHTTPS env domain dohURL qtype)) ->
  req = doh_request dohURL msgBytes.
Proof.
  intros Hpack. unfold trace_of. rewrite DNSOverHTTPS_no_request, Hpack.
  destruct (url_error env (URL (doh_request dohURL msgBytes))) as [err |] eqn:Hurl.
  - cbn. intros [H | []]. discriminate H.
  - rewrite (DNSOverHTTPS_run env domain dohURL qtype msgBytes [] Hpack Hurl).
    cbv zeta.
    destruct (round_trip env (doh_request dohURL msgBytes))
      as [status code body | cause |];
      [destruct (fin body); [destruct (code =? StatusOK)%Z | |] | |];
      cbn [fst app In]; intros H;
      repeat (destruct H as [H | H]; [try discriminate H | ]);
      try contradiction; inversion H; reflexivity.
Qed.

(** X13. The request identifies the query: two calls to one DoH endpoint
    send the same request only if their packed queries are the same
    bytes. *)
Theorem DNSOverHTTPS_request_determines_query (domain1 domain2 : string)
  (qtype1 qtype2 : Z) (b1 b2 : bytes) (req : Request) :
  Pack (query domain1 qtype1) = inl b1 ->
  Pack (query domain2 qtype2) = inl b2 ->
  In (EDo req) (trace_of (DNSOverHTTPS env domain1 dohURL qtype1)) ->
  In (EDo req) (trace_of (DNSOverHTTPS env domain2 dohURL qtype2)) ->
  b1 = b2.
Proof.
  intros Hp1 Hp2 H1 H2.
  apply (DNSOverHTTPS_sent domain1 qtype1 b1 req Hp1) in H1.
  apply (DNSOverHTTPS_sent domain2 qtype2 b2 req Hp2) in H2.
  apply (doh_request_inj dohURL). congruence.
Qed.

End Requests.

(** ** The further properties on stub servers *)

Lemma DNSOverTCP_closes_connection_witness :
  dial stub_world "tcp" ("8.8.8.8" ++ ":53") = DialOk stub_server
  /\ snd (DNSOverTCP (codec := rawCodec) stub_world "example.com" "8.8.8.8"
                     TypeA [])
     = Returns (inl [x01; x02; x03; x04])
  /\ exists mid,
       fst (DNSOverTCP (codec := rawCodec) stub_world "example.com" "8.8.8.8"
                       TypeA [])
       = ([] ++ mid ++ [EClose])%list
       /\ Forall (fun e => is_close e = false) mid.
Proof.
  split; [reflexivity | split; [reflexivity |]].
  apply (proj1 (DNSOverTCP_closes_connection (codec := rawCodec) stub_world
                  "example.com" "8.8.8.8" TypeA [])
           stub_server (inl [x01; x02; x03; x04]));
    reflexivity.
Defined.

Lemma DNSOverTCP_decodes_delivered_body_witness :
  len [x01; x02; x03; x04] = byte_val x00 * 256 + byte_val x04
  /\ DNSOverTCP (codec := rawCodec) stub_world "example.com" "8.8.8.8" TypeA []
     = ([EDial "tcp" "8.8.8.8:53"; EPack;
         EWrite (frame (list_byte_of_string "example.com."));
         ERead 2; ERead 4; EUnpack [x01; x02; x03; x04]; EClose],
        Returns (inl [x01; x02; x03; x04])).
Proof.
  split; [reflexivity |].
  apply (DNSOverTCP_decodes_delivered_body (codec := rawCodec) stub_world
           "example.com" "8.8.8.8" TypeA stub_server
           (list_byte_of_string "example.com.") x00 x04
           [x01; x02; x03; x04] [] []);
    try reflexivity.
  left. reflexivity.
Defined.

(** The prefix is zero, two more bytes follow, and the peer stays silent. *)
Lemma DNSOverTCP_zero_length_response_witness :
  DNSOverTCP (codec := rawCodec)
    (world (DialOk (server [[x00; x00; x07; x08]] Silent)) NoResponse)
    "example.com" "8.8.8.8" TypeA []
  = ([EDial "tcp" "8.8.8.8:53"; EPack;
      EWrite (frame (list_byte_of_string "example.com."));
      ERead 2; ERead 0; EUnpack []; EClose],
     Returns (inl [])).
Proof.
  apply (DNSOverTCP_zero_length_response (codec := rawCodec)
           (world (DialOk (server [[x00; x00; x07; x08]] Silent)) NoResponse)
           "example.com" "8.8.8.8" TypeA
           (server [[x00; x00; x07; x08]] Silent)
           (list_byte_of_string "example.com.") [x07; x08] [] []);
    reflexivity.
Defined.

(** The peer closes the connection without sending anything. *)
Lemma DNSOverTCP_length_read_error_witness :
  DNSOverTCP (codec := rawCodec)
    (world (DialOk (server [[]] Closed)) NoResponse)
    "example.com" "8.8.8.8" TypeA []
  = ([EDial "tcp" "8.8.8.8:53"; EPack;
      EWrite (frame (list_byte_of_string "example.com."));
      ERead 2; EClose],
     Returns (inr "failed to read response length: EOF")).
Proof.
  apply (DNSOverTCP_length_read_error (codec := rawCodec)
           (world (DialOk (server [[]] Closed)) NoResponse)
           "example.com" "8.8.8.8" TypeA (server [[]] Closed)
           (list_byte_of_string "example.com.") "EOF" []);
    try reflexivity.
  repeat constructor.
Defined.

(** The peer announces four bytes and the connection is reset. *)
Lemma DNSOverTCP_body_read_error_witness :
  DNSOverTCP (codec := rawCodec)
    (world (DialOk (server [[x00; x04]] (Failed "connection reset by peer")))
           NoResponse)
    "example.com" "8.8.8.8" TypeA []
  = ([EDial "tcp" "8.8.8.8:53"; EPack;
      EWrite (frame (list_byte_of_string "example.com."));
      ERead 2; ERead 4; EClose],
     Returns (inr "failed to read DNS response: connection reset by peer")).
Proof.
  apply (DNSOverTCP_body_read_error (codec := rawCodec)
           (world (DialOk (server [[x00; x04]] (Failed "connection reset by peer")))
                  NoResponse)
           "example.com" "8.8.8.8" TypeA
           (server [[x00; x04]] (Failed "connection reset by peer"))
           (list_byte_of_string "example.com.") x00 x04 []
           "connection reset by peer" []);
    try reflexivity.
  - constructor.
  - discriminate.
Defined.

Lemma DNSOverHTTPS_fails_before_request_witness :
  Pack (DNS := rejectingCodec) (query "example.com" TypeA) = inr "dns: bad rdata"
  /\ DNSOverHTTPS (codec := rejectingCodec) (http_world ok_response)
                  "example.com" cloudflare TypeA []
     = ([EPack], Returns (inr "failed to pack DNS message: dns: bad rdata")).
Proof.
  split; [reflexivity |].
  apply (proj1 (DNSOverHTTPS_fails_before_request (codec := rejectingCodec)
                  (http_world ok_response) "example.com" cloudflare TypeA [])
           "dns: bad rdata").
  reflexivity.
Defined.

Lemma DNSOverHTTPS_closes_body_witness :
  (exists mid,
     fst (DNSOverHTTPS (codec := rawCodec) (http_world error_response)
                       "example.com" cloudflare TypeA [])
     = ([] ++ mid ++ [EBodyClose])%list
     /\ Forall (fun e => is_body_close e = false) mid
     /\ count is_read_all mid = 1%nat)
  /\ DNSOverHTTPS (codec := rawCodec)
       (http_world (TransportErr "dial tcp: connection refused"))
       "example.com" cloudflare TypeA []
     = ([EPack;
         EDo (doh_request cloudflare (list_byte_of_string "example.com."))],
        Returns (inr "HTTP request failed: dial tcp: connection refused")).
Proof.
  split.
  - apply (proj1 (DNSOverHTTPS_closes_body (codec := rawCodec)
                    (http_world error_response) "example.com" cloudflare TypeA
                    (list_byte_of_string "example.com.") [] eq_refl eq_refl)
             "500 Internal Server Error" 500
             {| chunks := [list_byte_of_string "oops"]; fin := Closed |}
             (inr "DoH server returned non-OK status: 500 Internal Server Error, body: oops"));
      reflexivity.
  - apply (proj2 (DNSOverHTTPS_closes_body (codec := rawCodec)
                    (http_world (TransportErr "dial tcp: connection refused"))
                    "example.com" cloudflare TypeA
                    (list_byte_of_string "example.com.") [] eq_refl eq_refl)
             "dial tcp: connection refused").
    reflexivity.
Defined.

(** Status 200, two bytes of the body, then the connection breaks. *)
Lemma DNSOverHTTPS_body_read_error_witness :
  let broken := Responds "200 OK" 200
                  {| chunks := [[x01; x02]]; fin := Failed "unexpected EOF" |} in
  DNSOverHTTPS (codec := rawCodec) (http_world broken) "example.com" cloudflare
               TypeA []
  = ([EPack; EDo (doh_request cloudflare (list_byte_of_string "example.com."));
      EReadAll; EBodyClose],
     Returns (inr "failed to read DNS response: unexpected EOF"))
  /\ Forall (fun e => is_unpack e = false)
            (trace_of (DNSOverHTTPS (codec := rawCodec) (http_world broken)
                                    "example.com" cloudflare TypeA)).
Proof.
  apply (DNSOverHTTPS_body_read_error (codec := rawCodec)
           (http_world (Responds "200 OK" 200
                          {| chunks := [[x01; x02]];
                             fin := Failed "unexpected EOF" |}))
           "example.com" cloudflare TypeA
           (list_byte_of_string "example.com.") "200 OK"
           {| chunks := [[x01; x02]]; fin := Failed "unexpected EOF" |}
           "unexpected EOF" []);
    reflexivity.
Defined.

(** The stub server over TCP and the same message over HTTP, in two
    segments. *)
Lemma transports_agree_witness :
  let both := world (DialOk stub_server) ok_response in
  snd (DNSOverTCP (codec := rawCodec) both "example.com" "8.8.8.8" TypeA [])
  = Returns (inl [x01; x02; x03; x04])
  /\ snd (DNSOverHTTPS (codec := rawCodec) both "example.com" cloudflare TypeA [])
     = Returns (inl [x01; x02; x03; x04])
  /\ In (EUnpack [x01; x02; x03; x04])
        (fst (DNSOverTCP (codec := rawCodec) both "example.com" "8.8.8.8"
                         TypeA []))
  /\ In (EUnpack [x01; x02; x03; x04])
        (fst (DNSOverHTTPS (codec := rawCodec) both "example.com" cloudflare
                           TypeA [])).
Proof.
  apply (transports_agree (codec := rawCodec)
           (world (DialOk stub_server) ok_response) "example.com" cloudflare
           TypeA "8.8.8.8" stub_server (list_byte_of_string "example.com.")
           x00 x04 [x01; x02; x03; x04] [] [[x01; x02]; [x03; x04]] "200 OK"
           [] []);
    try reflexivity.
  left. reflexivity.
Defined.

Lemma DNSOverHTTPS_request_determines_query_witness :
  let req := doh_request cloudflare (list_byte_of_string "example.com.") in
  In (EDo req)
     (trace_of (DNSOverHTTPS (codec := rawCodec) (http_world ok_response)
                             "example.com" cloudflare TypeA))
  /\ list_byte_of_string "example.com." = list_byte_of_string "example.com.".
Proof.
  assert (H : In (EDo (doh_request cloudflare (list_byte_of_string "example.com.")))
                 (trace_of (DNSOverHTTPS (codec := rawCodec)
                              (http_world ok_response) "example.com" cloudflare
                              TypeA)))
    by (right; left; reflexivity).
  split; [exact H |].
  exact (DNSOverHTTPS_request_determines_query (codec := rawCodec)
           (http_world ok_response) cloudflare "example.com" "example.com"
           TypeA TypeA (list_byte_of_string "example.com.")
           (list_byte_of_string "example.com.") _ eq_refl eq_refl H H).
Defined.

Lemma main_success_decoded_witness :
  let Args := ["tmp-dns"; "example.com"] in
  let tr := fst (main (codec := rawCodec) stub_world Args []) in
  let ex := {| exit_code := 0;
               stdout := "DNS Response for example.com:" ++ nl
                         ++ string_of_bytes [x01; x02; x03; x04] ++ nl;
               logged := "" |} in
  main (codec := rawCodec) stub_world Args [] = (tr, Returns ex)
  /\ exists events b response,
       tr = ([] ++ events)%list
       /\ In (EUnpack b) events
       /\ Unpack (DNS := rawCodec) b = inl response
       /\ ex = {| exit_code := 0;
                  stdout := "DNS Response for " ++ nth 1 Args "" ++ ":" ++ nl
                            ++ String.concat ""
                                 (map (fun ans => ans ++ nl)
                                      (Answer (DNS := rawCodec) response));
                  logged := "" |}.
Proof.
  split; [reflexivity |].
  apply (main_success_decoded (codec := rawCodec) stub_world
           ["tmp-dns"; "example.com"] []);
    reflexivity.
Defined.

Lemma main_arguments_witness :
  len ["tmp-dns"] < 2
  /\ main (codec := rawCodec) stub_world ["tmp-dns"] []
     = ([], Returns {| exit_code := 1;
                       stdout := "Usage: " ++ nth 0 ["tmp-dns"] ""
                                 ++ " <domain> [tcp|http]" ++ nl;
                       logged := "" |}).
Proof.
  assert (H : len ["tmp-dns"] < 2) by reflexivity.
  split; [exact H |].
  exact (proj1 (main_arguments (codec := rawCodec) stub_world []) ["tmp-dns"] H).
Defined.

(** ** Timeouts *)

Section Stalls.

Context {codec : DNS}.
Variables (env : Env) (domain dnsServer : string) (qtype : Z).

(** No deadline is set on the connection: when the connected peer stalls,
    the call does not return. *)
Lemma DNSOverTCP_blocks (p : Peer) (msgBytes : bytes) (t : list event) :
  dial env "tcp" (dnsServer ++ ":53") = DialOk p ->
  Pack (query domain qtype) = inl msgBytes ->
  stalls p (frame msgBytes) ->
  snd (DNSOverTCP env domain dnsServer qtype t) = Blocks.
Proof.
  intros Hdial Hpack Hstall.
  rewrite DNSOverTCP_tcp_run. unfold tcp_run. rewrite Hdial, Hpack.
  destruct Hstall as [Hw | [Hw [Hfin Hdata]]]; rewrite Hw; [reflexivity |].
  unfold tcp_after_write.
  destruct Hdata as [Hempty | [hi [lo [more [Hshape [Hempty Hnz]]]]]].
  - rewrite read_outcome_eq. change (make 2) with [x00; x00].
    cbn [connect rx deadline].
    rewrite (take_available_empty _ _ Hempty), Hfin. reflexivity.
  - pose proof (byte_val_bounded hi) as Hhi.
    pose proof (byte_val_bounded lo) as Hlo.
    rewrite (read_prefix (connect p) hi lo [] more Hshape).
    cbv beta iota zeta. cbn [nth]. rewrite be16.
    set (n := byte_val hi * 256 + byte_val lo) in *.
    rewrite read_outcome_eq. cbn [rx chunks fin deadline connect].
    rewrite (take_available_empty _ _ Hempty), Hfin.
    assert (Hmake : exists b rest, make n = b :: rest).
    { unfold make. destruct (Z.to_nat n) eqn:E; [lia |].
      cbn [repeat]. eauto. }
    destruct Hmake as [b [rest ->]]. reflexivity.
Qed.

End Stalls.

(** C3, as amended. The write and the two reads of the stream transport and
    the round trip of the web transport (the wait for the response and the
    read of its body) carry no timeout: no deadline is set on the
    connection, and the [http.Client] has a zero [Timeout].  When the
    connected peer stops responding at the write, at the read of the prefix
    or at the read of the body, [DNSOverTCP] does not return; when the HTTP
    server sends no response or never ends the body, [DNSOverHTTPS] does
    not return: no timeout error is produced. *)
Theorem transports_block_without_timeout {codec : DNS} (env : Env)
  (domain dnsServer dohURL : string) (qtype : Z) (msgBytes : bytes)
  (p : Peer) (t : list event) :
  Pack (query domain qtype) = inl msgBytes ->
  dial env "tcp" (dnsServer ++ ":53") = DialOk p ->
  stalls p (frame msgBytes) ->
  url_error env (URL (doh_request dohURL msgBytes)) = None ->
  never_responds (round_trip env (doh_request dohURL msgBytes)) ->
  snd (DNSOverTCP env domain dnsServer qtype t) = Blocks
  /\ snd (DNSOverHTTPS env domain dohURL qtype t) = Blocks.
Proof.
  intros Hpack Hdial Hstall Hurl Hhttp. split.
  - exact (DNSOverTCP_blocks env domain dnsServer qtype p msgBytes t
             Hdial Hpack Hstall).
  - exact (DNSOverHTTPS_blocks env domain dohURL qtype msgBytes t
             Hpack Hurl Hhttp).
Qed.

(** The three stalls of a connected peer, and the two of an HTTP server. *)
Lemma transports_block_without_timeout_witness :
  let query_bytes := list_byte_of_string "example.com." in
  let deaf : Peer := {| on_write := fun _ => WriteSilent;
                        inbound := {| chunks := []; fin := Silent |} |} in
  let mute : Peer := server [] Silent in
  let teaser : Peer := server [[x00; x04]] Silent in
  let endless : RoundTripResult :=
    Responds "200 OK" 200 {| chunks := [[x01]]; fin := Silent |} in
  (stalls deaf (frame query_bytes)
   /\ stalls mute (frame query_bytes)
   /\ stalls teaser (frame query_bytes))
  /\ (snd (DNSOverTCP (codec := rawCodec) (world (DialOk deaf) NoResponse)
                      "example.com" "8.8.8.8" TypeA []) = Blocks
      /\ snd (DNSOverHTTPS (codec := rawCodec) (world (DialOk deaf) NoResponse)
                           "example.com" cloudflare TypeA []) = Blocks)
  /\ (snd (DNSOverTCP (codec := rawCodec) (world (DialOk mute) endless)
                      "example.com" "8.8.8.8" TypeA []) = Blocks
      /\ snd (DNSOverHTTPS (codec := rawCodec) (world (DialOk mute) endless)
                           "example.com" cloudflare TypeA []) = Blocks)
  /\ (snd (DNSOverTCP (codec := rawCodec) (world (DialOk teaser) NoResponse)
                      "example.com" "8.8.8.8" TypeA []) = Blocks
      /\ snd (DNSOverHTTPS (codec := rawCodec) (world (DialOk teaser) NoResponse)
                           "example.com" cloudflare TypeA []) = Blocks).
Proof.
  intros query_bytes deaf mute teaser endless.
  assert (Hdeaf : stalls deaf (frame query_bytes)) by (left; reflexivity).
  assert (Hmute : stalls mute (frame query_bytes))
    by (right; repeat split; left; constructor).
  assert (Hteaser : stalls teaser (frame query_bytes)).
  { right. repeat split. right. exists x00, x04, [].
    repeat split; [constructor | discriminate]. }
  split; [exact (conj Hdeaf (conj Hmute Hteaser)) |].
  split; [| split].
  - exact (transports_block_without_timeout (codec := rawCodec)
             (world (DialOk deaf) NoResponse) "example.com" "8.8.8.8"
             cloudflare TypeA query_bytes deaf [] eq_refl eq_refl Hdeaf
             eq_refl I).
  - exact (transports_block_without_timeout (codec := rawCodec)
             (world (DialOk mute) endless) "example.com" "8.8.8.8"
             cloudflare TypeA query_bytes mute [] eq_refl eq_refl Hmute
             eq_refl eq_refl).
  - exact (transports_block_without_timeout (codec := rawCodec)
             (world (DialOk teaser) NoResponse) "example.com" "8.8.8.8"
             cloudflare TypeA query_bytes teaser [] eq_refl eq_refl Hteaser
             eq_refl I).
Defined.

(** C3, the claim as stated fails: with a peer that stops responding
    neither call returns a timeout error; each blocks: in the write, in the
    read of the prefix, in the read of the body, in the HTTP round trip and
    in the read of the HTTP body. *)
Lemma transports_never_time_out :
  DNSOverTCP (codec := rawCodec)
    (world (DialOk {| on_write := fun _ => WriteSilent;
                      inbound := {| chunks := []; fin := Silent |} |})
           NoResponse)
    "example.com" "8.8.8.8" TypeA []
  = ([EDial "tcp" "8.8.8.8:53"; EPack;
      EWrite (x00 :: x0c :: list_byte_of_string "example.com.")],
     Blocks)
  /\ DNSOverTCP (codec := rawCodec) silent_world "example.com" "8.8.8.8" TypeA []
     = ([EDial "tcp" "8.8.8.8:53"; EPack;
         EWrite (x00 :: x0c :: list_byte_of_string "example.com."); ERead 2],
        Blocks)
  /\ DNSOverTCP (codec := rawCodec)
       (world (DialOk (server [[x00; x04]] Silent)) NoResponse)
       "example.com" "8.8.8.8" TypeA []
     = ([EDial "tcp" "8.8.8.8:53"; EPack;
         EWrite (x00 :: x0c :: list_byte_of_string "example.com.");
         ERead 2; ERead 4],
        Blocks)
  /\ DNSOverHTTPS (codec := rawCodec) silent_world "example.com" cloudflare
                  TypeA []
     = ([EPack;
         EDo (doh_request cloudflare (list_byte_of_string "example.com."))],
        Blocks)
  /\ DNSOverHTTPS (codec := rawCodec)
       (http_world (Responds "200 OK" 200
                      {| chunks := [[x01]]; fin := Silent |}))
       "example.com" cloudflare TypeA []
     = ([EPack;
         EDo (doh_request cloudflare (list_byte_of_string "example.com."));
         EReadAll],
        Blocks).
Proof. repeat split; vm_compute; reflexivity. Qed.
